(** * Collaborative-filtering recommendations of the Luna backend

    A shallow embedding of [src/routes/recommendation.js]: the cosine
    similarity of two like-arrays ([calculateUserSimilarity]) and the ranking
    built on it ([getRecommendations]), over the mock interaction store that
    the route hard-codes.

    JavaScript numbers are IEEE 754 binary64 values; they are modelled by the
    primitive floats of the standard library, whose operations are the same
    binary64 operations with round-to-nearest-even.  Array lengths and
    counters that the code only reads through [.length] are natural numbers. *)

From Stdlib Require Import List String Ascii Bool Arith ZArith Lia.
From Stdlib Require Import Permutation Sorted DecimalString.
From Stdlib Require Import Floats.
Import ListNotations.

Local Open Scope string_scope.
Local Open Scope list_scope.

(** ** JavaScript values the route relies on *)

Module JS.

(** A call either returns or throws; for an [async] function, the promise
    it returns is fulfilled or rejected. *)
Inductive error : Type :=
| TypeError (msg : string).

Inductive outcome (A : Type) : Type :=
| Returned (a : A)
| Thrown (e : error).
Arguments Returned {A} a.
Arguments Thrown {A} e.

(** An object literal with string keys: its own properties, in insertion
    order (the order of [Object.entries] and [Object.values] when no key is
    an array index, which holds of every object below). *)
Definition object (A : Type) : Type := list (string * A).

Fixpoint own {A : Type} (o : object A) (k : string) : option A :=
  match o with
  | [] => None
  | (k', v) :: rest => if String.eqb k' k then Some v else own rest k
  end.

(** [o[k] = v]: overwrite in place, or append a new key. *)
Fixpoint set {A : Type} (o : object A) (k : string) (v : A) : object A :=
  match o with
  | [] => [(k, v)]
  | (k', v') :: rest =>
      if String.eqb k' k then (k', v) :: rest else (k', v') :: set rest k v
  end.

Definition keys {A : Type} (o : object A) : list string := map fst o.
Definition values {A : Type} (o : object A) : list A := map snd o.

(** What a property read finds on [Object.prototype] when the object has
    no own property of that name: a built-in function (of which only its
    [length] matters here) or, for [__proto__], the prototype itself. *)
Inductive builtin : Type :=
| BuiltinFunction (arity : nat)
| ObjectPrototype.

Definition Object_prototype : object builtin :=
  [ ("constructor", BuiltinFunction 1);
    ("__defineGetter__", BuiltinFunction 2);
    ("__defineSetter__", BuiltinFunction 2);
    ("hasOwnProperty", BuiltinFunction 1);
    ("__lookupGetter__", BuiltinFunction 1);
    ("__lookupSetter__", BuiltinFunction 1);
    ("isPrototypeOf", BuiltinFunction 1);
    ("propertyIsEnumerable", BuiltinFunction 1);
    ("toString", BuiltinFunction 0);
    ("valueOf", BuiltinFunction 0);
    ("__proto__", ObjectPrototype);
    ("toLocaleString", BuiltinFunction 0) ].

(** The result of the property read [o[k]]. *)
Inductive property (A : Type) : Type :=
| Own (a : A)
| Inherited (b : builtin)
| Undefined.
Arguments Own {A} a.
Arguments Inherited {A} b.
Arguments Undefined {A}.

Definition get {A : Type} (o : object A) (k : string) : property A :=
  match own o k with
  | Some a => Own a
  | None =>
      match own Object_prototype k with
      | Some b => Inherited b
      | None => Undefined
      end
  end.

(** [Array.prototype.includes] on an array of strings. *)
Definition includes (l : list string) (x : string) : bool :=
  existsb (String.eqb x) l.

(** [Set.prototype.add] and [new Set(iterable)]: insertion order, first
    occurrence kept. *)
Definition setAdd (s : list string) (x : string) : list string :=
  if includes s x then s else s ++ [x].

Definition newSet (l : list string) : list string :=
  fold_left setAdd l [].

(** [Array.prototype.sort(compare)]: a stable sort; [a] is moved behind
    [b] only when [compare(a, b) > 0].  [insert] places an element that
    preceded all of [sorted] in the array. *)
Fixpoint insert {A : Type} (compare : A -> A -> float) (a : A)
    (sorted : list A) : list A :=
  match sorted with
  | [] => [a]
  | b :: rest =>
      if PrimFloat.ltb 0 (compare a b)
      then b :: insert compare a rest
      else a :: b :: rest
  end.

Definition sort {A : Type} (compare : A -> A -> float) (l : list A) : list A :=
  fold_right (insert compare) [] l.

(** [array.slice(0, n)]. *)
Definition slice0 {A : Type} (n : nat) (l : list A) : list A := firstn n l.
Arguments slice0 : simpl never.

(** ToBoolean of a number that may be [undefined]. *)
Definition falsy (x : option float) : bool :=
  match x with
  | None => true
  | Some f => PrimFloat.eqb f 0 || PrimFloat.is_nan f
  end.

(** Decimal rendering of an array length inside a template literal. *)
Definition numberToString (n : nat) : string :=
  NilZero.string_of_uint (Nat.to_uint n).

End JS.
Import JS.

(** ** The similarity function *)

(** One round of the [for] loop of [calculateUserSimilarity]. *)
Definition cosineStep (acc : float * float * float) (uv : float * float)
    : float * float * float :=
  let '(dotProduct, userMagnitude, otherUserMagnitude) := acc in
  let '(u, v) := uv in
  ((dotProduct + u * v)%float,
   (userMagnitude + u * u)%float,
   (otherUserMagnitude + v * v)%float).

Definition indicator (likes : list string) (postId : string) : float :=
  if includes likes postId then 1%float else 0%float.

Definition calculateUserSimilarity (userLikes otherUserLikes : list string)
    : float :=
  let allPosts := newSet (userLikes ++ otherUserLikes) in
  if (List.length allPosts =? 0)%nat then 0%float
  else
    let userVector := map (indicator userLikes) allPosts in
    let otherUserVector := map (indicator otherUserLikes) allPosts in
    let '(dotProduct, userMagnitude, otherUserMagnitude) :=
      fold_left cosineStep (combine userVector otherUserVector)
        (0%float, 0%float, 0%float) in
    let magnitude :=
      (PrimFloat.sqrt userMagnitude * PrimFloat.sqrt otherUserMagnitude)%float in
    if PrimFloat.eqb magnitude 0 then 0%float
    else (dotProduct / magnitude)%float.

(** ** The mock interaction store *)

Module Business.
Record t : Type := { id : string; name : string; category : string }.
End Business.

Record Store : Type :=
  { userLikes : object (list string);
    postBusinessMap : object string;
    businesses : object Business.t }.

Definition mockData : Store :=
  {| userLikes :=
       [ ("user_1", ["post_1"; "post_2"; "post_3"; "post_5"]);
         ("user_2", ["post_2"; "post_3"; "post_4"; "post_6"]);
         ("user_3", ["post_1"; "post_4"; "post_7"; "post_8"]);
         ("user_4", ["post_2"; "post_5"; "post_6"; "post_9"]) ];
     postBusinessMap :=
       [ ("post_1", "business_1");
         ("post_2", "business_2");
         ("post_3", "business_1");
         ("post_4", "business_3");
         ("post_5", "business_2");
         ("post_6", "business_3");
         ("post_7", "business_4");
         ("post_8", "business_4");
         ("post_9", "business_5") ];
     businesses :=
       [ ("business_1",
          {| Business.id := "business_1"; Business.name := "Coffee Shop A";
             Business.category := "Food & Drink" |});
         ("business_2",
          {| Business.id := "business_2"; Business.name := "Restaurant B";
             Business.category := "Food & Drink" |});
         ("business_3",
          {| Business.id := "business_3"; Business.name := "Gym C";
             Business.category := "Fitness" |});
         ("business_4",
          {| Business.id := "business_4"; Business.name := "Salon D";
             Business.category := "Beauty" |});
         ("business_5",
          {| Business.id := "business_5"; Business.name := "Bookstore E";
             Business.category := "Retail" |}) ] |}.

(** ** Intermediate and returned records *)

Module SimilarUser.
Record t : Type :=
  { userId : string; similarity : float; sharedLikes : nat }.
End SimilarUser.

Module BusinessScore.
Record t : Type :=
  { business : option Business.t;
    score : float;
    recommendedPosts : list string }.
End BusinessScore.

Module Friend.
Record t : Type :=
  { userId : string; similarityScore : float; sharedInterests : nat }.
End Friend.

Module Recommended.
Record t : Type :=
  { business : option Business.t;
    recommendationScore : float;
    reason : string }.
End Recommended.

(** The returned object; a field the object literal does not have is
    [None]. *)
Record Recommendations : Type :=
  { potentialFriends : list Friend.t;
    recommendedBusinesses : list Recommended.t;
    message : option string;
    algorithm : option string;
    totalSimilarUsers : option nat }.

(** ** getRecommendations *)

(** The value of [mockData.userLikes[userId] || []]: an array of the table,
    the empty array for a name found nowhere, or a member of
    [Object.prototype] (truthy, so [||] keeps it). *)
Inductive likesValue : Type :=
| Likes (l : list string)
| NotAnArray (b : builtin).

Definition currentUserLikes (userId : string) : likesValue :=
  match get (userLikes mockData) userId with
  | Own l => Likes l
  | Inherited b => NotAnArray b
  | Undefined => Likes []
  end.

(** [currentUserLikes.length === 0]; the [length] of [Object.prototype] is
    [undefined]. *)
Definition lengthIsZero (v : likesValue) : bool :=
  match v with
  | Likes l => (List.length l =? 0)%nat
  | NotAnArray (BuiltinFunction n) => (n =? 0)%nat
  | NotAnArray ObjectPrototype => false
  end.

Definition noLikes : Recommendations :=
  {| potentialFriends := [];
     recommendedBusinesses := [];
     message :=
       Some "No likes found for user. Start liking posts to get recommendations!";
     algorithm := None;
     totalSimilarUsers := None |}.

(** The first loop: one record per other user of positive similarity, in
    the order of [Object.entries]. *)
Fixpoint userSimilarities (userId : string) (currentUserLikes : list string)
    (entries : object (list string)) : list SimilarUser.t :=
  match entries with
  | [] => []
  | (otherUserId, otherUserLikes) :: rest =>
      if String.eqb otherUserId userId
      then userSimilarities userId currentUserLikes rest
      else
        let similarity :=
          calculateUserSimilarity currentUserLikes otherUserLikes in
        if PrimFloat.ltb 0 similarity
        then {| SimilarUser.userId := otherUserId;
                SimilarUser.similarity := similarity;
                SimilarUser.sharedLikes :=
                  List.length
                    (filter (includes otherUserLikes) currentUserLikes) |}
             :: userSimilarities userId currentUserLikes rest
        else userSimilarities userId currentUserLikes rest
  end.

Definition bySimilarity (a b : SimilarUser.t) : float :=
  (SimilarUser.similarity b - SimilarUser.similarity a)%float.

Definition topSimilarUsers (userId : string) (currentUserLikes : list string)
    : list SimilarUser.t :=
  slice0 10
    (sort bySimilarity
       (userSimilarities userId currentUserLikes (userLikes mockData))).

(** [mockData.userLikes[similarUser.userId]]: the identifiers of similar
    users are keys of the table (see [similar_user_known]), so the read
    finds an array. *)
Definition similarUserLikes (similarUser : SimilarUser.t) : list string :=
  match own (userLikes mockData) (SimilarUser.userId similarUser) with
  | Some l => l
  | None => []
  end.

(** Reading a score in arithmetic position: [undefined] becomes [NaN]. *)
Definition toNumber (x : option float) : float :=
  match x with
  | Some f => f
  | None => PrimFloat.nan
  end.

(** The body of the inner scoring loop, on the pair
    [(recommendedPostIds, postScores)]. *)
Definition scorePost (currentUserLikes : list string)
    (similarUser : SimilarUser.t)
    (st : list string * object float) (postId : string)
    : list string * object float :=
  let '(recommendedPostIds, postScores) := st in
  if negb (includes currentUserLikes postId)
  then
    let postScores :=
      if falsy (own postScores postId) then set postScores postId 0%float
      else postScores in
    (setAdd recommendedPostIds postId,
     set postScores postId
       (toNumber (own postScores postId)
        + SimilarUser.similarity similarUser)%float)
  else st.

Definition scoreCandidates (currentUserLikes : list string)
    (top : list SimilarUser.t) : list string * object float :=
  fold_left
    (fun st similarUser =>
       fold_left (scorePost currentUserLikes similarUser)
         (similarUserLikes similarUser) st)
    top ([], []).

(** The body of the loop over [recommendedPostIds]: the entry of the
    business is created on first use, then its score and posts grow. *)
Definition scoreBusiness (postScores : object float)
    (businessScores : object BusinessScore.t) (postId : string)
    : object BusinessScore.t :=
  match own (postBusinessMap mockData) postId with
  | Some businessId =>
      if String.eqb businessId "" then businessScores
      else
        let item :=
          match own businessScores businessId with
          | Some item => item
          | None =>
              {| BusinessScore.business :=
                   own (businesses mockData) businessId;
                 BusinessScore.score := 0%float;
                 BusinessScore.recommendedPosts := [] |}
          end in
        set businessScores businessId
          {| BusinessScore.business := BusinessScore.business item;
             BusinessScore.score :=
               (BusinessScore.score item
                + toNumber (own postScores postId))%float;
             BusinessScore.recommendedPosts :=
               BusinessScore.recommendedPosts item ++ [postId] |}
  | None => businessScores
  end.

Definition businessScores (st : list string * object float)
    : object BusinessScore.t :=
  fold_left (scoreBusiness (snd st)) (fst st) [].

Definition byScore (a b : BusinessScore.t) : float :=
  (BusinessScore.score b - BusinessScore.score a)%float.

Definition toRecommended (item : BusinessScore.t) : Recommended.t :=
  {| Recommended.business := BusinessScore.business item;
     Recommended.recommendationScore := BusinessScore.score item;
     Recommended.reason :=
       "Liked by "
       ++ numberToString (List.length (BusinessScore.recommendedPosts item))
       ++ " similar user(s)" |}.

Definition toFriend (user : SimilarUser.t) : Friend.t :=
  {| Friend.userId := SimilarUser.userId user;
     Friend.similarityScore := SimilarUser.similarity user;
     Friend.sharedInterests := SimilarUser.sharedLikes user |}.

(** Everything after the early return, for a requester whose likes are the
    array [likes]. *)
Definition recommend (userId : string) (likes : list string)
    : Recommendations :=
  let top := topSimilarUsers userId likes in
  let recommended :=
    map toRecommended
      (sort byScore (values (businessScores (scoreCandidates likes top)))) in
  {| potentialFriends := map toFriend top;
     recommendedBusinesses := slice0 20 recommended;
     message := None;
     algorithm := Some "collaborative_filtering";
     totalSimilarUsers :=
       Some (List.length (userSimilarities userId likes (userLikes mockData))) |}.

(** [calculateUserSimilarity] spreads its first argument, [[...userLikes]];
    a function or a plain object is not iterable, so the first other user
    of the table makes the call throw. *)
Definition getRecommendations (userId : string) : outcome Recommendations :=
  let likes := currentUserLikes userId in
  if lengthIsZero likes then Returned noLikes
  else
    match likes with
    | Likes l => Returned (recommend userId l)
    | NotAnArray _ =>
        if existsb (fun entry => negb (String.eqb (fst entry) userId))
             (userLikes mockData)
        then Thrown (TypeError "userLikes is not iterable")
        else Returned (recommend userId [])
    end.

(** ** The route handlers *)

(** A value read from the request that is a string, [null] or
    [undefined], under the test [!x]: the string when the test fails. *)
Definition present (x : option string) : option string :=
  match x with
  | Some s => if String.eqb s "" then None else Some s
  | None => None
  end.

(** [message || fallback] for a message that is a string or [undefined]. *)
Definition orElse (message : option string) (fallback : string) : string :=
  match present message with
  | Some m => m
  | None => fallback
  end.

(** The response of [GET /api/recommendation]: the status and the keys of
    the JSON body; a key the body does not have is [None]. *)
Module Reply.
Record t : Type :=
  { status : nat;
    success : bool;
    message : option string;
    potentialFriends : option (list Friend.t);
    recommendedBusinesses : option (list Recommended.t);
    algorithm : option string;
    totalSimilarUsers : option nat }.
End Reply.

Definition failure (status : nat) (message : string) : Reply.t :=
  {| Reply.status := status;
     Reply.success := false;
     Reply.message := Some message;
     Reply.potentialFriends := None;
     Reply.recommendedBusinesses := None;
     Reply.algorithm := None;
     Reply.totalSimilarUsers := None |}.

(** The handler of [router.get('/')], after [requireAuth()] let the request
    through, as a function of [getAuth(req).userId]; [res.json] without
    [res.status] answers 200, and the object spread copies the keys of the
    recommendations behind [success]. *)
Definition recommendationRoute (userId : option string) : Reply.t :=
  match present userId with
  | None => failure 401 "Unauthorized - user not authenticated"
  | Some userId =>
      match getRecommendations userId with
      | Returned recommendations =>
          {| Reply.status := 200;
             Reply.success := true;
             Reply.message := message recommendations;
             Reply.potentialFriends :=
               Some (potentialFriends recommendations);
             Reply.recommendedBusinesses :=
               Some (recommendedBusinesses recommendations);
             Reply.algorithm := algorithm recommendations;
             Reply.totalSimilarUsers := totalSimilarUsers recommendations |}
      | Thrown (TypeError message) =>
          failure 500 (orElse (Some message) "Failed to get recommendations")
      end
  end.

(** *** The Clerk client, as far as [routes/auth.js] uses it *)

Module EmailAddress.
Record t : Type := { emailAddress : string }.
End EmailAddress.

Module PhoneNumber.
Record t : Type := { phoneNumber : string }.
End PhoneNumber.

Module ClerkUser.
Record t : Type :=
  { id : string;
    emailAddresses : list EmailAddress.t;
    firstName : option string;
    lastName : option string;
    phoneNumbers : list PhoneNumber.t;
    imageUrl : string;
    createdAt : Z;
    lastSignInAt : option Z }.
End ClerkUser.

(** The object handed to [clerkClient.users.createUser]; [phoneNumbers] is
    set only for a request with a phone number. *)
Module UserData.
Record t : Type :=
  { emailAddress : list string;
    password : string;
    firstName : string;
    lastName : string;
    phoneNumbers : option (list string) }.
End UserData.

Module Clerk.

(** An awaited call resolves to a user or rejects with an error, of which
    the handlers read the [message]. *)
Inductive result : Type :=
| Resolved (user : ClerkUser.t)
| Rejected (message : option string).

Record client : Type :=
  { createUser : UserData.t -> result;
    getUser : string -> result }.

(** The calls a handler made, in order. *)
Inductive call : Type :=
| CreateUser (userData : UserData.t)
| GetUser (userId : string).

End Clerk.

(** *** The requests and responses of [routes/auth.js] *)

(** The fields read from [req.body], each a JSON string or missing.  A
    string is a sequence of UTF-16 code units, one per character here; the
    handlers only test a string for emptiness and read its [length]. *)
Module SignupBody.
Record t : Type :=
  { email : option string;
    password : option string;
    firstName : option string;
    lastName : option string;
    phoneNumber : option string }.
End SignupBody.

Module LoginBody.
Record t : Type :=
  { email : option string;
    password : option string }.
End LoginBody.

(** The [user] object of a response.  [emailAddress] and [phoneNumber] are
    [undefined] when Clerk's user has none; [firstName], [lastName] and the
    inner value of [lastSignInAt] are passed on as they are, [null]
    included; [imageUrl] and [lastSignInAt] are keys of the profile
    response only. *)
Module UserView.
Record t : Type :=
  { id : string;
    emailAddress : option string;
    firstName : option string;
    lastName : option string;
    phoneNumber : option string;
    imageUrl : option string;
    createdAt : Z;
    lastSignInAt : option (option Z) }.
End UserView.

Module AuthReply.
Record t : Type :=
  { status : nat;
    success : bool;
    message : option string;
    note : option string;
    user : option UserView.t }.
End AuthReply.

Definition authFailure (status : nat) (message : string) : AuthReply.t :=
  {| AuthReply.status := status;
     AuthReply.success := false;
     AuthReply.message := Some message;
     AuthReply.note := None;
     AuthReply.user := None |}.

(** The handler of [POST /signup]: the response and the calls made to
    Clerk. *)
Definition signup (clerkClient : Clerk.client) (body : SignupBody.t)
    : AuthReply.t * list Clerk.call :=
  match present (SignupBody.email body), present (SignupBody.password body),
        present (SignupBody.firstName body),
        present (SignupBody.lastName body) with
  | Some email, Some password, Some firstName, Some lastName =>
      if (String.length password <? 8)%nat
      then (authFailure 400 "Password must be at least 8 characters long", [])
      else
        let userData :=
          {| UserData.emailAddress := [email];
             UserData.password := password;
             UserData.firstName := firstName;
             UserData.lastName := lastName;
             UserData.phoneNumbers :=
               match present (SignupBody.phoneNumber body) with
               | Some phoneNumber => Some [phoneNumber]
               | None => None
               end |} in
        (match Clerk.createUser clerkClient userData with
         | Clerk.Resolved user =>
             {| AuthReply.status := 201;
                AuthReply.success := true;
                AuthReply.message := Some "User created successfully";
                AuthReply.note := None;
                AuthReply.user :=
                  Some
                    {| UserView.id := ClerkUser.id user;
                       UserView.emailAddress :=
                         option_map EmailAddress.emailAddress
                           (hd_error (ClerkUser.emailAddresses user));
                       UserView.firstName := ClerkUser.firstName user;
                       UserView.lastName := ClerkUser.lastName user;
                       UserView.phoneNumber :=
                         option_map PhoneNumber.phoneNumber
                           (hd_error (ClerkUser.phoneNumbers user));
                       UserView.imageUrl := None;
                       UserView.createdAt := ClerkUser.createdAt user;
                       UserView.lastSignInAt := None |} |}
         | Clerk.Rejected message =>
             authFailure 500 (orElse message "Failed to create user")
         end,
         [Clerk.CreateUser userData])
  | _, _, _, _ =>
      (authFailure 400
         "Email, password, first name, and last name are required", [])
  end.


(** The handler of [GET /profile], as a function of
    [getAuth(req).userId]. *)
Definition profile (clerkClient : Clerk.client) (userId : option string)
    : AuthReply.t * list Clerk.call :=
  match present userId with
  | None => (authFailure 401 "Unauthorized - user not authenticated", [])
  | Some userId =>
      (match Clerk.getUser clerkClient userId with
       | Clerk.Resolved user =>
           {| AuthReply.status := 200;
              AuthReply.success := true;
              AuthReply.message := None;
              AuthReply.note := None;
              AuthReply.user :=
                Some
                  {| UserView.id := ClerkUser.id user;
                     UserView.emailAddress :=
                       option_map EmailAddress.emailAddress
                         (hd_error (ClerkUser.emailAddresses user));
                     UserView.firstName := ClerkUser.firstName user;
                     UserView.lastName := ClerkUser.lastName user;
                     UserView.phoneNumber :=
                       option_map PhoneNumber.phoneNumber
                         (hd_error (ClerkUser.phoneNumbers user));
                     UserView.imageUrl := Some (ClerkUser.imageUrl user);
                     UserView.createdAt := ClerkUser.createdAt user;
                     UserView.lastSignInAt :=
                       Some (ClerkUser.lastSignInAt user) |} |}
       | Clerk.Rejected message =>
           authFailure 500 (orElse message "Failed to retrieve user profile")
       end,
       [Clerk.GetUser userId])
  end.

(** ** Vocabulary of the statements *)

(** The value a counter holds after [k] increments, [0 + 1 + ... + 1]. *)
Definition tally (k : nat) : float :=
  Nat.iter k (fun x => (x + 1)%float) 0%float.

(** The last three lines of [calculateUserSimilarity], as a function of the
    three accumulators. *)
Definition cosine (dotProduct userMagnitude otherUserMagnitude : float)
    : float :=
  let magnitude :=
    (PrimFloat.sqrt userMagnitude * PrimFloat.sqrt otherUserMagnitude)%float in
  if PrimFloat.eqb magnitude 0 then 0%float
  else (dotProduct / magnitude)%float.

(** A binary64 value that is NaN or does not carry a minus sign. *)
Definition nonnegative (x : spec_float) : Prop :=
  match x with
  | S754_zero s | S754_infinity s | S754_finite s _ _ => s = false
  | S754_nan => True
  end.

(** The number of distinct posts of an array. *)
Definition distinct (likes : list string) : nat :=
  List.length (newSet likes).

(** [compare] does not ask for [a] to be moved behind [b]. *)
Definition inOrder {A : Type} (compare : A -> A -> float) (a b : A) : Prop :=
  PrimFloat.ltb 0 (compare a b) = false.

(** A binary64 value above zero. *)
Definition positive_sf (x : spec_float) : bool := SFltb (S754_zero false) x.

(** A list of scores in which no score is followed by a greater one. *)
Definition descending (l : list float) : Prop :=
  StronglySorted (fun x y => PrimFloat.leb y x = true) l.

(** The users that the first loop keeps: every other entry of the table
    whose similarity to the requester is positive. *)
Definition isSimilar (userId : string) (likes : list string)
    (entry : string * list string) : bool :=
  negb (String.eqb (fst entry) userId)
  && PrimFloat.ltb 0 (calculateUserSimilarity likes (snd entry)).

(** The similarity score reported for a user, if they are listed. *)
Definition similarityOf (r : Recommendations) (userId : string)
    : option float :=
  option_map Friend.similarityScore
    (find (fun f => String.eqb (Friend.userId f) userId) (potentialFriends r)).

(** The identifiers of the recommended businesses, best first. *)
Definition businessIds (r : Recommendations) : list (option string) :=
  map (fun b => option_map Business.id (Recommended.business b))
    (recommendedBusinesses r).



(** The score of a business entry: the scores of its posts, added up from
    0 in the order they were pushed. *)
Definition sumOfPostScores (postScores : object float) (posts : list string)
    : float :=
  fold_left (fun acc p => (acc + toNumber (own postScores p))%float)
    posts 0%float.

(** The number of distinct posts two arrays have in common. *)
Definition shared (a b : list string) : nat :=
  List.length (filter (fun p => includes a p && includes b p) (newSet (a ++ b))).

(** What the similarity [r] of two arrays with [a] and [b] distinct posts,
    [d] of them in common, has to satisfy: it lies between 0 and the
    binary64 successor of 1, is 0 exactly when [d] is 0, reaches 1 only
    when the two sets coincide, and is then no less than the binary64
    number two steps below 1. *)
Definition rangeCheck (d a b : nat) (r : float) : bool :=
  PrimFloat.leb 0 r
  && PrimFloat.leb r 0x1.0000000000001p+0
  && Bool.eqb (PrimFloat.eqb r 0) (d =? 0)%nat
  && (if PrimFloat.leb 1 r then (d =? a)%nat && (d =? b)%nat else true)
  && (if (d =? a)%nat && (d =? b)%nat && negb (d =? 0)%nat
      then PrimFloat.leb 0x1.ffffffffffffep-1 r else true).

(** The counters [k], [k + 1], ... with the values they hold. *)
Fixpoint tallies (n k : nat) (f : float) : list (nat * float) :=
  match n with
  | 0 => []
  | S n => (k, f) :: tallies n (S k) (f + 1)%float
  end.

(** [rangeCheck] on every triple of counts up to [n] with [d] at most [a]
    and [b]. *)
Definition rangeCheckUpTo (n : nat) : bool :=
  let t := tallies (S n) 0 0%float in
  forallb
    (fun '(a, fa) =>
       forallb
         (fun '(b, fb) =>
            forallb (fun '(d, fd) => rangeCheck d a b (cosine fd fa fb))
              (firstn (S (Nat.min a b)) t))
         t)
    t.

(** The members of [Object.prototype] whose [length] is not 0: the names
    for which the early return is skipped although the table has no such
    user. *)
Definition throwingNames : list string :=
  keys (filter (fun kv => negb (lengthIsZero (NotAnArray (snd kv))))
          Object_prototype).

(** The recommended posts that belong to a business. *)
Definition postsOf (businessId : string) (recommendedPostIds : list string)
    : list string :=
  filter
    (fun p =>
       match own (postBusinessMap mockData) p with
       | Some b => String.eqb b businessId
       | None => false
       end)
    recommendedPostIds.

(** Decides [descending] on a list of binary64 literals. *)
Ltac descending_by_evaluation :=
  vm_compute; repeat (constructor; try reflexivity).

(** * Properties *)

(** ** Arrays and insertion-ordered sets *)

Lemma includes_In (l : list string) (x : string) :
  includes l x = true <-> In x l.
Proof.
  unfold includes. rewrite existsb_exists. split.
  - intros [y [Hy Heq]]. apply String.eqb_eq in Heq. now subst.
  - intros H. exists x. split; [assumption | apply String.eqb_refl].
Qed.

Lemma includes_false (l : list string) (x : string) :
  includes l x = false <-> ~ In x l.
Proof.
  rewrite <- includes_In. destruct (includes l x); split; congruence.
Qed.

Lemma setAdd_In (s : list string) (x y : string) :
  In y (setAdd s x) <-> In y s \/ y = x.
Proof.
  unfold setAdd. destruct (includes s x) eqn:E.
  - apply includes_In in E. split; [auto | intros [H | ->]; assumption].
  - rewrite in_app_iff. simpl. intuition congruence.
Qed.

Lemma setAdd_NoDup (s : list string) (x : string) :
  NoDup s -> NoDup (setAdd s x).
Proof.
  intros H. unfold setAdd. destruct (includes s x) eqn:E; [assumption |].
  apply includes_false in E.
  apply NoDup_app; [assumption | repeat constructor; simpl; tauto |].
  intros a Ha [<- | []]. contradiction.
Qed.

Lemma fold_setAdd_In (l s : list string) (y : string) :
  In y (fold_left setAdd l s) <-> In y s \/ In y l.
Proof.
  revert s. induction l as [| x l IH]; intros s; simpl.
  - tauto.
  - rewrite IH, setAdd_In. intuition congruence.
Qed.

Lemma fold_setAdd_NoDup (l s : list string) :
  NoDup s -> NoDup (fold_left setAdd l s).
Proof.
  revert s. induction l as [| x l IH]; intros s H; simpl.
  - assumption.
  - apply IH, setAdd_NoDup, H.
Qed.

Lemma newSet_In (l : list string) (y : string) :
  In y (newSet l) <-> In y l.
Proof. unfold newSet. rewrite fold_setAdd_In. simpl. tauto. Qed.

Lemma newSet_NoDup (l : list string) : NoDup (newSet l).
Proof. apply fold_setAdd_NoDup. constructor. Qed.

Lemma newSet_swap (a b : list string) :
  Permutation (newSet (a ++ b)) (newSet (b ++ a)).
Proof.
  apply NoDup_Permutation; try apply newSet_NoDup.
  intros x. rewrite !newSet_In, !in_app_iff. tauto.
Qed.

(** The number of elements of a list that pass a test does not depend on
    their order. *)
Lemma count_Permutation {A : Type} (p : A -> bool) (l l' : list A) :
  Permutation l l' ->
  List.length (filter p l) = List.length (filter p l').
Proof.
  induction 1; simpl.
  - reflexivity.
  - destruct (p x); simpl; congruence.
  - destruct (p x), (p y); reflexivity.
  - congruence.
Qed.

(** ** Binary64 arithmetic *)

Lemma float_mul_comm (x y : float) : (x * y)%float = (y * x)%float.
Proof.
  apply Prim2SF_inj. rewrite !mul_spec. unfold SF64mul, SFmul.
  destruct (Prim2SF x) as [sx | sx | | sx mx ex],
           (Prim2SF y) as [sy | sy | | sy my ey];
    try reflexivity; try (now rewrite xorb_comm).
  now rewrite xorb_comm, Pos.mul_comm, Z.add_comm.
Qed.

Lemma binary_round_aux_sign (s : bool) (m e : Z) (l : location) :
  match binary_round_aux prec emax s m e l with
  | S754_zero s' | S754_infinity s' | S754_finite s' _ _ => s' = s
  | S754_nan => True
  end.
Proof.
  unfold binary_round_aux.
  destruct (shr_fexp prec emax m e l) as [mrs' e'].
  destruct (shr_fexp prec emax _ e' loc_Exact) as [mrs'' e''].
  destruct (shr_m mrs''); [reflexivity | | exact I].
  destruct (e'' <=? emax - prec)%Z; reflexivity.
Qed.

Lemma binary_round_sign (s : bool) (m : positive) (e : Z) :
  match binary_round prec emax s m e with
  | S754_zero s' | S754_infinity s' | S754_finite s' _ _ => s' = s
  | S754_nan => True
  end.
Proof.
  unfold binary_round.
  destruct (shl_align m e _) as [mz ez]. apply binary_round_aux_sign.
Qed.

Lemma add_zero_r (x : float) :
  nonnegative (Prim2SF x) -> (x + 0)%float = x.
Proof.
  intros H. apply Prim2SF_inj. rewrite add_spec.
  change (Prim2SF 0) with (S754_zero false).
  destruct (Prim2SF x) as [s | s | | s m e]; simpl in *; subst; reflexivity.
Qed.

Lemma add_one_nonnegative (x : float) :
  nonnegative (Prim2SF x) -> nonnegative (Prim2SF (x + 1)).
Proof.
  intros H. rewrite add_spec.
  change (Prim2SF 1) with (S754_finite false 4503599627370496 (-52)).
  destruct (Prim2SF x) as [s | s | | s m e]; simpl in *; subst;
    try reflexivity.
  unfold SF64add, SFadd, cond_Zopp, binary_normalize.
  match goal with
  | |- context [(Z.pos ?a + Z.pos ?b)%Z] =>
      change (Z.pos a + Z.pos b)%Z with (Z.pos (a + b))
  end.
  apply (binary_round_sign false).
Qed.

Lemma tally_S (k : nat) : tally (S k) = (tally k + 1)%float.
Proof. reflexivity. Qed.

Lemma tally_nonnegative (k : nat) : nonnegative (Prim2SF (tally k)).
Proof.
  induction k as [| k IH].
  - reflexivity.
  - rewrite tally_S. apply add_one_nonnegative, IH.
Qed.

(** The sign of a difference: [x - y] and [y - x] are never both above
    zero. *)
Lemma binary_normalize_positive (m e : Z) :
  positive_sf (binary_normalize prec emax m e false) = true -> (0 < m)%Z.
Proof.
  destruct m as [| m | m]; simpl; [discriminate | lia |].
  pose proof (binary_round_sign true m e) as H.
  destruct (binary_round prec emax true m e); try discriminate;
    subst; discriminate.
Qed.

Lemma binary_normalize_not_positive (m e : Z) :
  (m <= 0)%Z -> positive_sf (binary_normalize prec emax m e false) = false.
Proof.
  intros H. destruct (positive_sf _) eqn:E; [| reflexivity].
  apply binary_normalize_positive in E. lia.
Qed.

Lemma SFsub_positive_antisym (x y : spec_float) :
  positive_sf (SFsub prec emax x y) = true ->
  positive_sf (SFsub prec emax y x) = false.
Proof.
  destruct x as [sx | sx | | sx mx ex], y as [sy | sy | | sy my ey];
    try (destruct sx); try (destruct sy); try reflexivity; try discriminate.
  all: unfold SFsub.
  all: intros H; apply binary_normalize_positive in H;
       apply binary_normalize_not_positive.
  all: rewrite (Z.min_comm ey ex); simpl cond_Zopp in *; lia.
Qed.

Lemma sub_positive_antisym (x y : float) :
  PrimFloat.ltb 0 (x - y) = true -> PrimFloat.ltb 0 (y - x) = false.
Proof.
  rewrite !ltb_spec, !sub_spec. apply SFsub_positive_antisym.
Qed.

Lemma cosine_comm (d a b : float) : cosine d a b = cosine d b a.
Proof. unfold cosine. now rewrite float_mul_comm. Qed.

(** ** The similarity as a function of three counts *)

(** One round adds one to the accumulators whose post is liked. *)
Lemma cosineStep_tally (A B : list string) (p : string) (a b c : nat) :
  cosineStep (tally a, tally b, tally c) (indicator A p, indicator B p)
  = (tally (a + if includes A p && includes B p then 1 else 0),
     tally (b + if includes A p then 1 else 0),
     tally (c + if includes B p then 1 else 0)).
Proof.
  unfold cosineStep, indicator.
  destruct (includes A p), (includes B p); cbn [andb];
    repeat match goal with
      | |- context [(1 * 1)%float] => change (1 * 1)%float with 1%float
      | |- context [(1 * 0)%float] => change (1 * 0)%float with 0%float
      | |- context [(0 * 1)%float] => change (0 * 1)%float with 0%float
      | |- context [(0 * 0)%float] => change (0 * 0)%float with 0%float
      end;
    rewrite ?(add_zero_r _ (tally_nonnegative _)), <- ?tally_S,
      ?Nat.add_0_r, ?Nat.add_1_r; reflexivity.
Qed.

(** The loop leaves in each accumulator the tally of the ones it met. *)
Lemma cosine_loop (A B U : list string) (a b c : nat) :
  fold_left cosineStep
    (combine (map (indicator A) U) (map (indicator B) U))
    (tally a, tally b, tally c)
  = (tally (a + List.length
                  (filter (fun p => includes A p && includes B p) U)),
     tally (b + List.length (filter (includes A) U)),
     tally (c + List.length (filter (includes B) U))).
Proof.
  revert a b c. induction U as [| p U IH]; intros a b c.
  - cbn. now rewrite !Nat.add_0_r.
  - cbn [map combine fold_left filter].
    rewrite cosineStep_tally, IH.
    destruct (includes A p), (includes B p); cbn [andb List.length];
      rewrite ?Nat.add_0_r, ?Nat.add_1_r, <- ?Nat.add_succ_comm;
      reflexivity.
Qed.

Lemma calculateUserSimilarity_counts (A B : list string) :
  calculateUserSimilarity A B =
  let U := newSet (A ++ B) in
  if (List.length U =? 0)%nat then 0%float
  else cosine
         (tally (List.length
                   (filter (fun p => includes A p && includes B p) U)))
         (tally (List.length (filter (includes A) U)))
         (tally (List.length (filter (includes B) U))).
Proof.
  unfold calculateUserSimilarity. cbv zeta.
  destruct (List.length (newSet (A ++ B)) =? 0)%nat; [reflexivity |].
  change (0%float, 0%float, 0%float) with (tally 0, tally 0, tally 0).
  rewrite cosine_loop. reflexivity.
Qed.

(** C3. Symmetry: for all like-arrays [A] and [B],
    [calculateUserSimilarity(A, B)] and [calculateUserSimilarity(B, A)] are
    the same number. *)
Theorem similarity_symmetric (A B : list string) :
  calculateUserSimilarity A B = calculateUserSimilarity B A.
Proof.
  rewrite !calculateUserSimilarity_counts. cbv zeta.
  pose proof (newSet_swap A B) as P.
  rewrite (Permutation_length P).
  destruct (List.length (newSet (B ++ A)) =? 0)%nat; [reflexivity |].
  rewrite (count_Permutation (includes A) _ _ P),
          (count_Permutation (includes B) _ _ P),
          (count_Permutation _ _ _ P).
  rewrite cosine_comm. f_equal. f_equal. f_equal.
  apply filter_ext. intros p. apply andb_comm.
Qed.

(** The similarity of an array with itself depends on the number [n] of its
    distinct posts only: it is [n / (sqrt n * sqrt n)], every operation
    rounded to binary64. *)
Lemma similarity_self (A : list string) :
  calculateUserSimilarity A A =
  if (distinct A =? 0)%nat then 0%float
  else cosine (tally (distinct A)) (tally (distinct A)) (tally (distinct A)).
Proof.
  rewrite calculateUserSimilarity_counts. cbv zeta. unfold distinct.
  assert (P : Permutation (newSet (A ++ A)) (newSet A)).
  { apply NoDup_Permutation; try apply newSet_NoDup.
    intros x. rewrite !newSet_In, in_app_iff. tauto. }
  assert (F : forall q : string -> bool,
             (forall p, In p A -> q p = true) ->
             List.length (filter q (newSet (A ++ A)))
             = List.length (newSet A)).
  { intros q Hq. rewrite (count_Permutation q _ _ P).
    f_equal. apply forallb_filter_id, forallb_forall.
    intros p Hp. apply Hq, newSet_In, Hp. }
  rewrite (Permutation_length P).
  destruct (List.length (newSet A) =? 0)%nat; [reflexivity |].
  rewrite (F (includes A)) by (intros p Hp; now apply includes_In).
  rewrite F; [reflexivity |].
  intros p Hp. apply includes_In in Hp. now rewrite Hp.
Qed.

(** Identical arrays of four distinct posts, the size of every row of the
    mock table, do score 1: [sqrt 4] is exact. *)
Lemma similarity_self_four (A : list string) :
  distinct A = 4 -> calculateUserSimilarity A A = 1%float.
Proof. intros H. rewrite similarity_self, H. reflexivity. Qed.

Lemma similarity_empty : calculateUserSimilarity [] [] = 0%float.
Proof. reflexivity. Qed.

(** C2. Two identical arrays of two posts score [1 - 2^-52], not [1]: the
    product [sqrt 2 * sqrt 2] rounds to [2 + 2^-51]. *)
Theorem similarity_identical_pair_below_one :
  calculateUserSimilarity ["post_1"; "post_2"] ["post_1"; "post_2"]
  = 0x1.ffffffffffffep-1%float
  /\ PrimFloat.eqb
       (calculateUserSimilarity ["post_1"; "post_2"] ["post_1"; "post_2"]) 1
     = false.
Proof. split; vm_compute; reflexivity. Qed.

(** C4. Two identical arrays of three posts score [1 + 2^-52], above [1]:
    the product [sqrt 3 * sqrt 3] rounds to [3 - 2^-51]. *)
Theorem similarity_identical_triple_above_one :
  calculateUserSimilarity ["post_1"; "post_2"; "post_3"]
                          ["post_1"; "post_2"; "post_3"]
  = 0x1.0000000000001p+0%float
  /\ PrimFloat.leb
       (calculateUserSimilarity ["post_1"; "post_2"; "post_3"]
                                ["post_1"; "post_2"; "post_3"]) 1
     = false.
Proof. split; vm_compute; reflexivity. Qed.

(** ** The requester: a user of the table, an inherited name, or unknown *)

Lemma own_None_not_key {A : Type} (o : object A) (k : string) :
  own o k = None <-> ~ In k (keys o).
Proof.
  induction o as [| [k' v] o IH]; simpl.
  - tauto.
  - destruct (String.eqb_spec k' k) as [-> | Hne].
    + split; [discriminate | tauto].
    + rewrite IH. tauto.
Qed.

Lemma requester_cases (userId : string) :
  In userId (keys (userLikes mockData))
  \/ In userId (keys Object_prototype)
     /\ own (userLikes mockData) userId = None
  \/ own (userLikes mockData) userId = None
     /\ own Object_prototype userId = None.
Proof.
  destruct (own (userLikes mockData) userId) eqn:E1.
  - left. destruct (in_dec string_dec userId (keys (userLikes mockData)))
      as [H | H]; [assumption |].
    apply own_None_not_key in H. congruence.
  - right. destruct (own Object_prototype userId) eqn:E2.
    + left. split; [| reflexivity].
      destruct (in_dec string_dec userId (keys Object_prototype))
        as [H | H]; [assumption |].
      apply own_None_not_key in H. congruence.
    + right. split; reflexivity.
Qed.

(** A name found neither in the table nor on [Object.prototype] takes the
    early return. *)
Lemma unknown_user_no_likes (userId : string) :
  own (userLikes mockData) userId = None ->
  own Object_prototype userId = None ->
  getRecommendations userId = Returned noLikes.
Proof.
  intros H1 H2. unfold getRecommendations, currentUserLikes, get.
  rewrite H1, H2. reflexivity.
Qed.

(** Every call falls in one of seven cases: the four users of the table,
    the early return, or a [TypeError]. *)
Lemma getRecommendations_cases (userId : string) :
  userId = "user_1" \/ userId = "user_2" \/ userId = "user_3"
  \/ userId = "user_4"
  \/ getRecommendations userId = Returned noLikes
  \/ getRecommendations userId
     = Thrown (TypeError "userLikes is not iterable").
Proof.
  destruct (requester_cases userId) as [H | [[H _] | [H1 H2]]].
  - simpl in H. intuition.
  - simpl in H.
    repeat (destruct H as [<- | H];
            [ (right; right; right; right; left; vm_compute; reflexivity)
              || (right; right; right; right; right; vm_compute; reflexivity)
            | ]).
    destruct H.
  - right; right; right; right; left.
    now apply unknown_user_no_likes.
Qed.

(** ** Sorting and truncating keep the elements *)

Lemma insert_In {A : Type} (compare : A -> A -> float) (a x : A)
    (l : list A) :
  In x (insert compare a l) <-> x = a \/ In x l.
Proof.
  induction l as [| b l IH]; simpl.
  - intuition congruence.
  - destruct (PrimFloat.ltb 0 (compare a b)); simpl.
    + rewrite IH. intuition congruence.
    + intuition congruence.
Qed.

Lemma sort_In {A : Type} (compare : A -> A -> float) (x : A) (l : list A) :
  In x (sort compare l) <-> In x l.
Proof.
  unfold sort. induction l as [| a l IH]; simpl.
  - tauto.
  - rewrite insert_In, IH. intuition congruence.
Qed.

Lemma insert_length {A : Type} (compare : A -> A -> float) (a : A)
    (l : list A) :
  List.length (insert compare a l) = S (List.length l).
Proof.
  induction l as [| b l IH]; simpl; [reflexivity |].
  destruct (PrimFloat.ltb 0 (compare a b)); simpl; congruence.
Qed.

Lemma sort_length {A : Type} (compare : A -> A -> float) (l : list A) :
  List.length (sort compare l) = List.length l.
Proof.
  unfold sort. induction l as [| a l IH]; simpl; [reflexivity |].
  now rewrite insert_length, IH.
Qed.

Lemma slice0_In {A : Type} (n : nat) (x : A) (l : list A) :
  In x (slice0 n l) -> In x l.
Proof.
  unfold slice0. intros H. rewrite <- (firstn_skipn n l).
  apply in_or_app. now left.
Qed.

Lemma slice0_length {A : Type} (n : nat) (l : list A) :
  List.length (slice0 n l) <= n.
Proof. apply firstn_le_length. Qed.

(** With a comparator that never asks for both [a] behind [b] and [b]
    behind [a], the array comes out rearranged and in the comparator's
    order. *)
Section StableSort.

Context {A : Type} (compare : A -> A -> float).

Hypothesis compare_antisym :
  forall a b,
    PrimFloat.ltb 0 (compare a b) = true ->
    PrimFloat.ltb 0 (compare b a) = false.

Lemma insert_Sorted (a : A) (l : list A) :
  Sorted (inOrder compare) l -> Sorted (inOrder compare) (insert compare a l).
Proof.
  induction 1 as [| b l Hl IH Hb]; simpl.
  - repeat constructor.
  - destruct (PrimFloat.ltb 0 (compare a b)) eqn:E.
    + constructor; [exact IH |].
      destruct Hb as [| c l Hc]; simpl.
      * constructor. now apply compare_antisym.
      * destruct (PrimFloat.ltb 0 (compare a c)); constructor;
          [assumption | now apply compare_antisym].
    + repeat constructor; assumption.
Qed.

Lemma sort_Sorted (l : list A) : Sorted (inOrder compare) (sort compare l).
Proof.
  unfold sort. induction l as [| a l IH]; simpl.
  - constructor.
  - now apply insert_Sorted.
Qed.

End StableSort.

Lemma insert_Permutation {A : Type} (compare : A -> A -> float) (a : A)
    (l : list A) :
  Permutation (insert compare a l) (a :: l).
Proof.
  induction l as [| b l IH]; simpl; [reflexivity |].
  destruct (PrimFloat.ltb 0 (compare a b)); [| reflexivity].
  rewrite IH. apply perm_swap.
Qed.

Lemma sort_Permutation {A : Type} (compare : A -> A -> float) (l : list A) :
  Permutation (sort compare l) l.
Proof.
  unfold sort. induction l as [| a l IH]; simpl; [reflexivity |].
  rewrite insert_Permutation. now constructor.
Qed.

Lemma slice0_Sorted {A : Type} (R : A -> A -> Prop) (n : nat) (l : list A) :
  Sorted R l -> Sorted R (slice0 n l).
Proof.
  unfold slice0. intros H. revert n.
  induction H as [| a l Hl IH Ha]; intros [| n]; simpl;
    try constructor; [apply IH |].
  destruct Ha as [| b l Hb]; destruct n; simpl; constructor. assumption.
Qed.

(** Both sorts of the route leave no neighbour out of order. *)
Lemma topSimilarUsers_inOrder (userId : string) (likes : list string) :
  Sorted (inOrder bySimilarity) (topSimilarUsers userId likes).
Proof.
  apply slice0_Sorted, sort_Sorted.
  intros a b. apply sub_positive_antisym.
Qed.

Lemma businesses_inOrder (l : list BusinessScore.t) :
  Sorted (inOrder byScore) (sort byScore l).
Proof. apply sort_Sorted. intros a b. apply sub_positive_antisym. Qed.

(** ** The first loop *)

Lemma userSimilarities_In (userId : string) (likes : list string)
    (entries : object (list string)) (u : SimilarUser.t) :
  In u (userSimilarities userId likes entries) ->
  SimilarUser.userId u <> userId
  /\ exists otherUserLikes,
       In (SimilarUser.userId u, otherUserLikes) entries
       /\ SimilarUser.similarity u
          = calculateUserSimilarity likes otherUserLikes
       /\ PrimFloat.ltb 0 (SimilarUser.similarity u) = true.
Proof.
  induction entries as [| [otherUserId otherUserLikes] rest IH]; simpl.
  - intros [].
  - assert (K : In u (userSimilarities userId likes rest) ->
                SimilarUser.userId u <> userId
                /\ exists l,
                     ((otherUserId, otherUserLikes)
                      = (SimilarUser.userId u, l)
                      \/ In (SimilarUser.userId u, l) rest)
                     /\ SimilarUser.similarity u
                        = calculateUserSimilarity likes l
                     /\ PrimFloat.ltb 0 (SimilarUser.similarity u) = true).
    { intros H. destruct (IH H) as [Hne [l [Hin Hl]]].
      split; [assumption |]. exists l. tauto. }
    destruct (String.eqb_spec otherUserId userId) as [-> | Hne];
      [exact K |].
    destruct (PrimFloat.ltb 0 (calculateUserSimilarity likes otherUserLikes))
      eqn:Hpos; [| exact K].
    intros [<- | H]; [| exact (K H)].
    simpl. split; [assumption |].
    exists otherUserLikes. auto.
Qed.

Lemma userSimilarities_length (userId : string) (likes : list string)
    (entries : object (list string)) :
  List.length (userSimilarities userId likes entries)
  = List.length (filter (isSimilar userId likes) entries).
Proof.
  induction entries as [| [otherUserId otherUserLikes] rest IH]; simpl.
  - reflexivity.
  - unfold isSimilar at 1. simpl.
    destruct (String.eqb otherUserId userId); simpl; [exact IH |].
    destruct (PrimFloat.ltb 0 (calculateUserSimilarity likes otherUserLikes));
      simpl; congruence.
Qed.

Lemma topSimilarUsers_In (userId : string) (likes : list string)
    (u : SimilarUser.t) :
  In u (topSimilarUsers userId likes) ->
  In u (userSimilarities userId likes (userLikes mockData)).
Proof.
  unfold topSimilarUsers. intros H.
  apply slice0_In in H. now apply sort_In in H.
Qed.

(** What a call returns comes from the early return or from [recommend]. *)
Lemma getRecommendations_Returned (userId : string) (r : Recommendations) :
  getRecommendations userId = Returned r ->
  r = noLikes \/ exists likes, r = recommend userId likes.
Proof.
  unfold getRecommendations. cbv zeta.
  destruct (lengthIsZero (currentUserLikes userId)).
  - intros [= <-]. now left.
  - destruct (currentUserLikes userId) as [l | b].
    + intros [= <-]. right. now exists l.
    + destruct (existsb _ _); [discriminate |].
      intros [= <-]. right. now exists [].
Qed.

(** C5. No self-recommendation: whatever [getRecommendations] returns for
    a [userId], that [userId] is not the [userId] of any entry of
    [potentialFriends]. *)
Theorem no_self_recommendation (userId : string) (r : Recommendations) :
  getRecommendations userId = Returned r ->
  ~ In userId (map Friend.userId (potentialFriends r)).
Proof.
  intros H. destruct (getRecommendations_Returned _ _ H)
    as [-> | [likes ->]]; simpl.
  - tauto.
  - rewrite map_map. intros Hin. apply in_map_iff in Hin.
    destruct Hin as [u [Hid Hu]]. simpl in Hid.
    apply topSimilarUsers_In, userSimilarities_In in Hu.
    tauto.
Qed.

Lemma no_self_recommendation_witness :
  exists r, getRecommendations "user_1" = Returned r
            /\ ~ In "user_1" (map Friend.userId (potentialFriends r)).
Proof.
  eexists. split; [reflexivity |].
  apply (no_self_recommendation "user_1"). reflexivity.
Defined.

(** ** Truncation and ordering *)

Lemma recommend_lengths (userId : string) (likes : list string) :
  List.length (potentialFriends (recommend userId likes)) <= 10
  /\ List.length (recommendedBusinesses (recommend userId likes)) <= 20.
Proof.
  simpl. rewrite length_map. split; apply slice0_length.
Qed.

(** On the four users of the table both lists come out in descending
    order of their scores. *)
Lemma recommend_descending (userId : string) (likes : list string) :
  In (userId, likes) (userLikes mockData) ->
  descending
    (map Friend.similarityScore (potentialFriends (recommend userId likes)))
  /\ descending
       (map Recommended.recommendationScore
          (recommendedBusinesses (recommend userId likes))).
Proof.
  unfold descending. simpl.
  intros [[= <- <-] | [[= <- <-] | [[= <- <-] | [[= <- <-] | []]]]];
    split; descending_by_evaluation.
Qed.

(** C7. Truncation and ordering: for every [userId], the returned
    [potentialFriends] has at most 10 entries in descending order of
    similarity and [recommendedBusinesses] has at most 20 entries in
    descending order of score. *)
Theorem truncation_and_ordering (userId : string) (r : Recommendations) :
  getRecommendations userId = Returned r ->
  List.length (potentialFriends r) <= 10
  /\ descending (map Friend.similarityScore (potentialFriends r))
  /\ List.length (recommendedBusinesses r) <= 20
  /\ descending
       (map Recommended.recommendationScore (recommendedBusinesses r)).
Proof.
  intros H.
  assert (L : List.length (potentialFriends r) <= 10
              /\ List.length (recommendedBusinesses r) <= 20).
  { destruct (getRecommendations_Returned _ _ H) as [-> | [likes ->]].
    - simpl. lia.
    - apply recommend_lengths. }
  assert (D : descending (map Friend.similarityScore (potentialFriends r))
              /\ descending
                   (map Recommended.recommendationScore
                      (recommendedBusinesses r))).
  { destruct (getRecommendations_cases userId)
      as [-> | [-> | [-> | [-> | [E | E]]]]];
      try (injection H as <-; apply recommend_descending; simpl; tauto).
    - rewrite E in H. injection H as <-. split; constructor.
    - rewrite E in H. discriminate. }
  tauto.
Qed.

Lemma truncation_and_ordering_witness :
  exists r,
    getRecommendations "user_2" = Returned r
    /\ List.length (potentialFriends r) <= 10
    /\ descending (map Friend.similarityScore (potentialFriends r))
    /\ List.length (recommendedBusinesses r) <= 20
    /\ descending
         (map Recommended.recommendationScore (recommendedBusinesses r)).
Proof.
  eexists. split; [reflexivity |].
  apply (truncation_and_ordering "user_2"). reflexivity.
Defined.

(** ** The early return and the envelope *)

(** C8. Empty-likes path: when the like-array fetched for [userId] is
    empty, [getRecommendations] returns, and the object it returns has an
    empty [potentialFriends], an empty [recommendedBusinesses] and the
    explanatory [message]. *)
Theorem empty_likes_path (userId : string) :
  currentUserLikes userId = Likes [] ->
  exists r,
    getRecommendations userId = Returned r
    /\ potentialFriends r = []
    /\ recommendedBusinesses r = []
    /\ message r
       = Some "No likes found for user. Start liking posts to get recommendations!".
Proof.
  intros H. exists noLikes. unfold getRecommendations. rewrite H.
  simpl. auto.
Qed.

Lemma empty_likes_path_witness :
  currentUserLikes "user_5" = Likes []
  /\ exists r,
       getRecommendations "user_5" = Returned r
       /\ potentialFriends r = []
       /\ recommendedBusinesses r = []
       /\ message r
          = Some "No likes found for user. Start liking posts to get recommendations!".
Proof.
  split; [reflexivity | apply (empty_likes_path "user_5"); reflexivity].
Defined.

(** C9, as the claim states it, fails on the early return: the object
    returned for a user without likes has neither an [algorithm] nor a
    [totalSimilarUsers] field. *)
Lemma envelope_counterexample :
  exists r,
    getRecommendations "user_5" = Returned r
    /\ algorithm r <> Some "collaborative_filtering"
    /\ totalSimilarUsers r = None.
Proof.
  exists noLikes. repeat split. discriminate.
Qed.

(** C9, amended. For every [userId] whose like-array is not empty, the
    returned object carries the algorithm tag ["collaborative_filtering"]
    and a [totalSimilarUsers] equal to the number of other users of the
    table with a similarity above 0, whatever the truncation to ten; for
    every [userId] whose like-array is empty, the returned object has an
    empty [potentialFriends], an empty [recommendedBusinesses] and the
    message, and neither an [algorithm] nor a [totalSimilarUsers] field. *)
Theorem envelope_by_path (userId : string) (likes : list string) :
  currentUserLikes userId = Likes likes ->
  (likes <> [] ->
   exists r,
     getRecommendations userId = Returned r
     /\ algorithm r = Some "collaborative_filtering"
     /\ totalSimilarUsers r
        = Some (List.length
                  (filter (isSimilar userId likes) (userLikes mockData))))
  /\ (likes = [] ->
      exists r,
        getRecommendations userId = Returned r
        /\ potentialFriends r = []
        /\ recommendedBusinesses r = []
        /\ message r
           = Some "No likes found for user. Start liking posts to get recommendations!"
        /\ algorithm r = None
        /\ totalSimilarUsers r = None).
Proof.
  intros H. split.
  - intros Hne. exists (recommend userId likes).
    unfold getRecommendations. rewrite H.
    destruct likes as [| p likes]; [congruence |].
    cbn [lengthIsZero List.length Nat.eqb].
    repeat split. cbn [recommend totalSimilarUsers].
    now rewrite userSimilarities_length.
  - intros ->. exists noLikes.
    unfold getRecommendations. rewrite H.
    cbn [lengthIsZero List.length Nat.eqb].
    repeat split.
Qed.

Lemma envelope_by_path_witness :
  (exists r,
     getRecommendations "user_3" = Returned r
     /\ algorithm r = Some "collaborative_filtering"
     /\ totalSimilarUsers r
        = Some (List.length
                  (filter
                     (isSimilar "user_3"
                        ["post_1"; "post_4"; "post_7"; "post_8"])
                     (userLikes mockData))))
  /\ (exists r,
        getRecommendations "user_5" = Returned r
        /\ potentialFriends r = []
        /\ recommendedBusinesses r = []
        /\ message r
           = Some "No likes found for user. Start liking posts to get recommendations!"
        /\ algorithm r = None
        /\ totalSimilarUsers r = None).
Proof.
  split.
  - apply (envelope_by_path "user_3" ["post_1"; "post_4"; "post_7"; "post_8"]);
      [reflexivity | discriminate].
  - apply (envelope_by_path "user_5" []); reflexivity.
Defined.

(** C10. For the unknown user ["constructor"] the read
    [mockData.userLikes[userId]] finds [Object.prototype.constructor], a
    function of [length] 1: the early return is skipped and the first
    similarity computation throws. *)
Theorem unknown_user_constructor_throws :
  own (userLikes mockData) "constructor" = None
  /\ currentUserLikes "constructor" = NotAnArray (BuiltinFunction 1)
  /\ getRecommendations "constructor"
     = Thrown (TypeError "userLikes is not iterable").
Proof. repeat split. Qed.

(** ** The scoring loops *)

Lemma own_set {A : Type} (o : object A) (k k' : string) (v : A) :
  own (set o k v) k' = if String.eqb k k' then Some v else own o k'.
Proof.
  induction o as [| [k0 v0] o IH]; simpl.
  - reflexivity.
  - destruct (String.eqb_spec k0 k) as [-> | Hne]; simpl.
    + destruct (String.eqb k k'); reflexivity.
    + rewrite IH. destruct (String.eqb_spec k0 k') as [-> | Hne'];
        [| reflexivity].
      destruct (String.eqb_spec k k'); congruence.
Qed.

Lemma own_In_values {A : Type} (o : object A) (k : string) (v : A) :
  own o k = Some v -> In v (values o).
Proof.
  induction o as [| [k0 v0] o IH]; simpl; [discriminate |].
  destruct (String.eqb k0 k); [intros [= ->]; now left | auto].
Qed.



Lemma scorePost_ids (likes : list string) (u : SimilarUser.t)
    (st : list string * object float) (p : string) :
  fst (scorePost likes u st p)
  = if includes likes p then fst st else setAdd (fst st) p.
Proof.
  destruct st as [ids scores]. unfold scorePost.
  destruct (includes likes p); reflexivity.
Qed.









(** ** The names of the mock store *)

(** No user, post or business of the mock store is named like a member of
    [Object.prototype], and no key occurs twice: on these names a property
    read is a lookup among own properties. *)
Lemma mock_names_not_inherited :
  Forall (fun k => own Object_prototype k = None)
    (keys (userLikes mockData) ++ List.concat (values (userLikes mockData))
     ++ keys (postBusinessMap mockData) ++ values (postBusinessMap mockData)
     ++ keys (businesses mockData)).
Proof. repeat constructor. Qed.

Lemma mock_users_own (otherUserId : string) (otherUserLikes : list string) :
  In (otherUserId, otherUserLikes) (userLikes mockData) ->
  own (userLikes mockData) otherUserId = Some otherUserLikes.
Proof.
  simpl. intros [[= <- <-] | [[= <- <-] | [[= <- <-] | [[= <- <-] | []]]]];
    reflexivity.
Qed.

(** The read [mockData.userLikes[similarUser.userId]] of the scoring loop
    finds the array the similarity was computed from. *)
Lemma similar_user_known (userId : string) (likes : list string)
    (u : SimilarUser.t) :
  In u (topSimilarUsers userId likes) ->
  In (SimilarUser.userId u, similarUserLikes u) (userLikes mockData)
  /\ SimilarUser.similarity u
     = calculateUserSimilarity likes (similarUserLikes u).
Proof.
  intros H. apply topSimilarUsers_In, userSimilarities_In in H.
  destruct H as [_ [l [Hin [Hsim _]]]].
  unfold similarUserLikes. rewrite (mock_users_own _ _ Hin). auto.
Qed.

(** ** The fixture, end to end *)

(** C1, as the claim states it, fails: [user_2] is not strictly above
    [user_4], and neither [business_1] nor [business_2] is recommended. *)
Lemma fixture_user_1_counterexample :
  exists r,
    getRecommendations "user_1" = Returned r
    /\ ~ (exists s2 s4,
            similarityOf r "user_2" = Some s2
            /\ similarityOf r "user_4" = Some s4
            /\ PrimFloat.ltb s4 s2 = true)
    /\ ~ In (Some "business_1") (businessIds r)
    /\ ~ In (Some "business_2") (businessIds r).
Proof.
  eexists. split; [reflexivity |]. split; [| split].
  - intros [s2 [s4 [[= <-] [[= <-] H]]]]. vm_compute in H. discriminate.
  - vm_compute. intuition discriminate.
  - vm_compute. intuition discriminate.
Qed.

(** C1, amended. For [user_1] the similarity ranking is [user_2] and
    [user_4] tied at 0.5, then [user_3] at 0.25; the recommended businesses
    are [business_3] (1.75), [business_5] (0.5) and [business_4] (0.5), in
    that order. *)
Theorem fixture_user_1 :
  exists r,
    getRecommendations "user_1" = Returned r
    /\ map (fun f => (Friend.userId f, Friend.similarityScore f))
         (potentialFriends r)
       = [("user_2", 0.5%float); ("user_4", 0.5%float);
          ("user_3", 0.25%float)]
    /\ map (fun b => (option_map Business.id (Recommended.business b),
                      Recommended.recommendationScore b))
         (recommendedBusinesses r)
       = [(Some "business_3", 1.75%float); (Some "business_5", 0.5%float);
          (Some "business_4", 0.5%float)].
Proof.
  eexists. split; [reflexivity |]. split; vm_compute; reflexivity.
Qed.

(** * Further properties of the similarity *)

Lemma includes_ext (a a' : list string) :
  (forall p, In p a <-> In p a') -> forall p, includes a p = includes a' p.
Proof.
  intros H p. destruct (includes a' p) eqn:E.
  - apply includes_In, H, includes_In, E.
  - apply includes_false. rewrite H. now apply includes_false.
Qed.

Lemma newSet_ext (l l' : list string) :
  (forall p, In p l <-> In p l') -> Permutation (newSet l) (newSet l').
Proof.
  intros H. apply NoDup_Permutation; try apply newSet_NoDup.
  intros p. rewrite !newSet_In. apply H.
Qed.

(** X1. The similarity reads its arguments as sets: neither the order of the
    posts nor a repeated post changes the result. *)
Theorem similarity_of_sets (a a' b b' : list string) :
  (forall p, In p a <-> In p a') ->
  (forall p, In p b <-> In p b') ->
  calculateUserSimilarity a b = calculateUserSimilarity a' b'.
Proof.
  intros Ha Hb. rewrite !calculateUserSimilarity_counts. cbv zeta.
  assert (P : Permutation (newSet (a ++ b)) (newSet (a' ++ b'))).
  { apply newSet_ext. intros p. rewrite !in_app_iff, Ha, Hb. tauto. }
  rewrite (Permutation_length P).
  destruct (List.length (newSet (a' ++ b')) =? 0)%nat; [reflexivity |].
  rewrite (count_Permutation (includes a) _ _ P),
          (count_Permutation (includes b) _ _ P),
          (count_Permutation _ _ _ P).
  rewrite (filter_ext _ _ (includes_ext a a' Ha)),
          (filter_ext _ _ (includes_ext b b' Hb)).
  f_equal. f_equal. f_equal. apply filter_ext. intros p.
  now rewrite (includes_ext a a' Ha), (includes_ext b b' Hb).
Qed.

Lemma similarity_of_sets_witness :
  calculateUserSimilarity ["post_2"; "post_1"; "post_2"] ["post_1"; "post_3"]
  = calculateUserSimilarity ["post_1"; "post_2"] ["post_3"; "post_1"; "post_1"].
Proof.
  apply similarity_of_sets; intros p; simpl; tauto.
Defined.

(** A quotient with numerator 0 is 0 or NaN, hence not above 0. *)
Lemma zero_div_not_positive (y : float) : PrimFloat.ltb 0 (0 / y) = false.
Proof.
  rewrite ltb_spec, div_spec.
  change (Prim2SF 0) with (S754_zero false).
  destruct (Prim2SF y) as [s | s | | s m e]; reflexivity.
Qed.

Lemma cosine_zero_not_positive (a b : float) :
  PrimFloat.ltb 0 (cosine 0 a b) = false.
Proof.
  unfold cosine. destruct (PrimFloat.eqb _ 0); [reflexivity |].
  apply zero_div_not_positive.
Qed.

(** ** The similarity from the sizes of the two sets and of their overlap *)

Lemma count_includes_left (a b : list string) :
  List.length (filter (includes a) (newSet (a ++ b))) = distinct a.
Proof.
  unfold distinct. apply Permutation_length, NoDup_Permutation.
  - apply NoDup_filter, newSet_NoDup.
  - apply newSet_NoDup.
  - intros p. rewrite filter_In, !newSet_In, in_app_iff, includes_In. tauto.
Qed.

Lemma count_includes_right (a b : list string) :
  List.length (filter (includes b) (newSet (a ++ b))) = distinct b.
Proof.
  unfold distinct. apply Permutation_length, NoDup_Permutation.
  - apply NoDup_filter, newSet_NoDup.
  - apply newSet_NoDup.
  - intros p. rewrite filter_In, !newSet_In, in_app_iff, includes_In. tauto.
Qed.

Lemma similarity_counts (a b : list string) :
  calculateUserSimilarity a b
  = cosine (tally (shared a b)) (tally (distinct a)) (tally (distinct b)).
Proof.
  rewrite calculateUserSimilarity_counts. cbv zeta. unfold shared.
  rewrite count_includes_left, count_includes_right.
  destruct (newSet (a ++ b)) as [| p u] eqn:E; [| reflexivity].
  assert (Ha : newSet a = []).
  { destruct (newSet a) as [| q l] eqn:Ea; [reflexivity |].
    assert (H : In q (newSet (a ++ b))).
    { apply newSet_In, in_or_app. left. apply newSet_In.
      rewrite Ea. now left. }
    rewrite E in H. destruct H. }
  assert (Hb : newSet b = []).
  { destruct (newSet b) as [| q l] eqn:Eb; [reflexivity |].
    assert (H : In q (newSet (a ++ b))).
    { apply newSet_In, in_or_app. right. apply newSet_In.
      rewrite Eb. now left. }
    rewrite E in H. destruct H. }
  unfold distinct. rewrite Ha, Hb. reflexivity.
Qed.

Lemma filter_length_le_filter {A : Type} (p q : A -> bool) (l : list A) :
  (forall x, p x = true -> q x = true) ->
  List.length (filter p l) <= List.length (filter q l).
Proof.
  intros H. induction l as [| x l IH]; simpl; [lia |].
  destruct (p x) eqn:E.
  - rewrite (H x E). simpl. lia.
  - destruct (q x); simpl; lia.
Qed.

Lemma filter_length_eq_filter {A : Type} (p q : A -> bool) (l : list A) :
  (forall x, p x = true -> q x = true) ->
  List.length (filter p l) = List.length (filter q l) ->
  forall x, In x l -> q x = true -> p x = true.
Proof.
  intros H. induction l as [| y l IH]; simpl; [tauto |].
  pose proof (filter_length_le_filter p q l H) as L.
  destruct (p y) eqn:E.
  - rewrite (H y E). simpl. intros Hlen x [<- | Hx] Hq; [assumption |].
    apply IH; [lia | assumption | assumption].
  - destruct (q y) eqn:Eq; simpl; intros Hlen x [<- | Hx] Hq;
      try congruence; try lia; apply IH; auto.
Qed.

Lemma shared_le_left (a b : list string) : shared a b <= distinct a.
Proof.
  rewrite <- (count_includes_left a b). unfold shared.
  apply filter_length_le_filter. intros p H.
  now apply andb_true_iff in H.
Qed.

Lemma shared_le_right (a b : list string) : shared a b <= distinct b.
Proof.
  rewrite <- (count_includes_right a b). unfold shared.
  apply filter_length_le_filter. intros p H.
  now apply andb_true_iff in H.
Qed.

Lemma shared_zero (a b : list string) :
  shared a b = 0 <-> forall p, In p a -> ~ In p b.
Proof.
  unfold shared. rewrite length_zero_iff_nil. split.
  - intros E p Ha Hb.
    assert (H : In p (filter (fun p => includes a p && includes b p)
                        (newSet (a ++ b)))).
    { apply filter_In. split.
      - apply newSet_In, in_or_app. now left.
      - apply andb_true_iff. now rewrite !includes_In. }
    rewrite E in H. destruct H.
  - intros H.
    destruct (filter _ _) as [| p l] eqn:E; [reflexivity |].
    assert (Hp : In p (p :: l)) by now left.
    rewrite <- E in Hp. apply filter_In in Hp. destruct Hp as [_ Hp].
    apply andb_true_iff in Hp. rewrite !includes_In in Hp.
    destruct (H p); tauto.
Qed.

Lemma shared_all (a b : list string) :
  shared a b = distinct a /\ shared a b = distinct b
  <-> forall p, In p a <-> In p b.
Proof.
  split.
  - intros [Ha Hb] p.
    rewrite <- (count_includes_left a b) in Ha.
    rewrite <- (count_includes_right a b) in Hb.
    unfold shared in Ha, Hb.
    assert (Hl := filter_length_eq_filter _ (includes a) _
                    (fun x H => proj1 (proj1 (andb_true_iff _ _) H)) Ha p).
    assert (Hr := filter_length_eq_filter _ (includes b) _
                    (fun x H => proj2 (proj1 (andb_true_iff _ _) H)) Hb p).
    cbv beta in Hl, Hr.
    rewrite newSet_In, in_app_iff, andb_true_iff, !includes_In in Hl, Hr.
    tauto.
  - intros H.
    rewrite <- (count_includes_left a b), <- (count_includes_right a b).
    unfold shared. split; f_equal; apply filter_ext; intros p.
    + rewrite <- (includes_ext a b H p). now destruct (includes a p).
    + rewrite (includes_ext a b H p). now destruct (includes b p).
Qed.

Lemma shared_positive (a b : list string) :
  shared a b <> 0 -> exists p, In p a /\ In p b.
Proof.
  intros H. unfold shared in H.
  destruct (filter (fun p => includes a p && includes b p) (newSet (a ++ b)))
    as [| p l] eqn:E; [now destruct H |].
  exists p. assert (Hp : In p (p :: l)) by now left.
  rewrite <- E in Hp. apply filter_In in Hp. destruct Hp as [_ Hp].
  apply andb_true_iff in Hp. now rewrite <- !includes_In.
Qed.

Lemma disjoint_not_positive (a b : list string) :
  shared a b = 0 -> PrimFloat.ltb 0 (calculateUserSimilarity a b) = false.
Proof.
  intros H. rewrite similarity_counts, H. apply cosine_zero_not_positive.
Qed.

(** X2. A positive similarity needs a post that both arrays contain. *)
Theorem similarity_positive_shared (a b : list string) :
  PrimFloat.ltb 0 (calculateUserSimilarity a b) = true ->
  exists p, In p a /\ In p b.
Proof.
  intros H. apply shared_positive. intros E.
  apply disjoint_not_positive in E. congruence.
Qed.

Lemma similarity_positive_shared_witness :
  exists p, In p ["post_1"; "post_2"] /\ In p ["post_2"; "post_3"].
Proof.
  apply similarity_positive_shared. reflexivity.
Defined.

(** ** The range of the similarity, up to a hundred distinct posts *)

Lemma tallies_In (n k0 k : nat) (f : float) :
  In (k, f) (tallies n k0 (tally k0)) <-> k0 <= k < k0 + n /\ f = tally k.
Proof.
  revert k0. induction n as [| n IH]; intros k0; simpl.
  - split; [tauto | lia].
  - rewrite <- tally_S, IH. split.
    + intros [[= <- <-] | [H ->]]; split; auto; lia.
    + intros [H ->]. destruct (Nat.eq_dec k0 k) as [-> | Hne];
        [now left | right; split; [lia | reflexivity]].
Qed.

Lemma tallies_firstn (m n k : nat) (f : float) :
  firstn m (tallies n k f) = tallies (Nat.min m n) k f.
Proof.
  revert n k f. induction m as [| m IH]; intros [| n] k f; simpl;
    try reflexivity.
  now rewrite IH.
Qed.

Lemma rangeCheckUpTo_spec (n d a b : nat) :
  rangeCheckUpTo n = true ->
  a <= n -> b <= n -> d <= a -> d <= b ->
  rangeCheck d a b (cosine (tally d) (tally a) (tally b)) = true.
Proof.
  unfold rangeCheckUpTo. cbv zeta. intros H Ha Hb Hda Hdb.
  rewrite forallb_forall in H.
  assert (T : forall k, k <= n ->
                        In (k, tally k) (tallies (S n) 0 0%float)).
  { intros k Hk. apply (tallies_In (S n) 0). split; [lia | reflexivity]. }
  specialize (H _ (T a Ha)). cbv beta iota in H.
  rewrite forallb_forall in H.
  specialize (H _ (T b Hb)). cbv beta iota in H.
  rewrite forallb_forall in H.
  apply (H (d, tally d)).
  rewrite tallies_firstn. apply (tallies_In _ 0). split; [lia | reflexivity].
Qed.

Lemma rangeCheckUpTo_100 : rangeCheckUpTo 100 = true.
Proof. vm_compute. reflexivity. Qed.

(** X3. For two arrays of at most a hundred distinct posts each, the similarity
    is a number between 0 and [1 + 2^-52]; it is 0 exactly when the arrays
    share no post; it reaches 1 only when they hold the same posts, and is
    then at least [1 - 2^-52]. *)
Theorem similarity_range (a b : list string) :
  distinct a <= 100 ->
  distinct b <= 100 ->
  let r := calculateUserSimilarity a b in
  PrimFloat.leb 0 r = true
  /\ PrimFloat.leb r 0x1.0000000000001p+0 = true
  /\ (PrimFloat.eqb r 0 = true <-> forall p, In p a -> ~ In p b)
  /\ (PrimFloat.leb 1 r = true -> forall p, In p a <-> In p b)
  /\ ((forall p, In p a <-> In p b) -> a <> [] ->
      PrimFloat.leb 0x1.ffffffffffffep-1 r = true).
Proof.
  intros Ha Hb r. unfold r. rewrite similarity_counts.
  pose proof (rangeCheckUpTo_spec 100 _ _ _ rangeCheckUpTo_100 Ha Hb
                (shared_le_left a b) (shared_le_right a b)) as C.
  unfold rangeCheck in C. rewrite !andb_true_iff in C.
  destruct C as [[[[C1 C2] C3] C4] C5].
  split; [assumption |]. split; [assumption |].
  apply Bool.eqb_prop in C3.
  split; [| split].
  - rewrite C3, Nat.eqb_eq. apply shared_zero.
  - intros H. rewrite H in C4. apply andb_true_iff in C4.
    rewrite !Nat.eqb_eq in C4. now apply shared_all.
  - intros H Hne. apply shared_all in H. destruct H as [H1 H2].
    rewrite <- H1, <- H2 in C5 at 1. rewrite !Nat.eqb_refl in C5.
    destruct (shared a b) as [| k] eqn:E; [| exact C5].
    exfalso. destruct a as [| p a]; [congruence |].
    symmetry in H1. unfold distinct in H1.
    apply length_zero_iff_nil in H1.
    assert (Hp : In p (newSet (p :: a))) by (apply newSet_In; now left).
    rewrite H1 in Hp. destruct Hp.
Qed.

Lemma similarity_range_witness :
  let a := ["post_1"; "post_2"; "post_3"] in
  let b := ["post_3"; "post_4"] in
  let r := calculateUserSimilarity a b in
  PrimFloat.leb 0 r = true
  /\ PrimFloat.leb r 0x1.0000000000001p+0 = true
  /\ (PrimFloat.eqb r 0 = true <-> forall p, In p a -> ~ In p b)
  /\ (PrimFloat.leb 1 r = true -> forall p, In p a <-> In p b)
  /\ ((forall p, In p a <-> In p b) -> a <> [] ->
      PrimFloat.leb 0x1.ffffffffffffep-1 r = true).
Proof.
  apply similarity_range; vm_compute; lia.
Defined.

(** * Further properties of getRecommendations *)

(** ** Which calls return what *)

Lemma table_user_returns (userId : string) :
  In userId (keys (userLikes mockData)) ->
  exists likes,
    own (userLikes mockData) userId = Some likes
    /\ getRecommendations userId = Returned (recommend userId likes).
Proof.
  simpl. intros [<- | [<- | [<- | [<- | []]]]];
    eexists; split; reflexivity.
Qed.

Lemma throwing_names_throw (userId : string) :
  In userId throwingNames <->
  getRecommendations userId = Thrown (TypeError "userLikes is not iterable").
Proof.
  split.
  - cbn. intros H.
    repeat (destruct H as [<- | H]; [reflexivity |]). destruct H.
  - intros H.
    destruct (requester_cases userId) as [K | [[K _] | [K1 K2]]].
    + simpl in K.
      destruct K as [<- | [<- | [<- | [<- | []]]]]; discriminate.
    + simpl in K.
      repeat (destruct K as [<- | K];
              [ (cbn; tauto) || (vm_compute in H; discriminate) |]).
      destruct K.
    + rewrite (unknown_user_no_likes _ K1 K2) in H. discriminate.
Qed.

Lemma other_names_no_likes (userId : string) :
  ~ In userId (keys (userLikes mockData)) ->
  ~ In userId throwingNames ->
  getRecommendations userId = Returned noLikes.
Proof.
  intros H1 H2.
  destruct (requester_cases userId) as [K | [[K _] | [K1 K2]]].
  - contradiction.
  - simpl in K.
    repeat (destruct K as [<- | K];
            [ reflexivity || (exfalso; apply H2; cbn; tauto) |]).
    destruct K.
  - now apply unknown_user_no_likes.
Qed.

(** X4. The three kinds of requester: a user of the table gets the full
    result, with the algorithm tag and without a message; one of the nine
    inherited names with a non-zero [length] makes the call throw, and no
    other name does; every remaining name gets the early return. *)
Theorem getRecommendations_outcome (userId : string) :
  (In userId (keys (userLikes mockData)) ->
   exists r,
     getRecommendations userId = Returned r
     /\ algorithm r = Some "collaborative_filtering"
     /\ message r = None)
  /\ (In userId throwingNames <->
      exists e, getRecommendations userId = Thrown e)
  /\ (~ In userId (keys (userLikes mockData)) ->
      ~ In userId throwingNames ->
      getRecommendations userId = Returned noLikes).
Proof.
  split; [| split].
  - intros K. destruct (table_user_returns _ K) as [likes [_ H]].
    exists (recommend userId likes). auto.
  - split.
    + intros K. eexists. now apply throwing_names_throw.
    + intros [e H].
      destruct (in_dec string_dec userId throwingNames) as [K | K];
        [assumption |].
      destruct (in_dec string_dec userId (keys (userLikes mockData)))
        as [K' | K'].
      * destruct (table_user_returns _ K') as [likes [_ H']]. congruence.
      * rewrite (other_names_no_likes _ K' K) in H. discriminate.
  - apply other_names_no_likes.
Qed.

Lemma getRecommendations_outcome_witness :
  (exists r,
     getRecommendations "user_1" = Returned r
     /\ algorithm r = Some "collaborative_filtering"
     /\ message r = None)
  /\ (exists e, getRecommendations "hasOwnProperty" = Thrown e)
  /\ getRecommendations "user_9" = Returned noLikes.
Proof.
  split; [| split].
  - apply (getRecommendations_outcome "user_1"). simpl. tauto.
  - apply (getRecommendations_outcome "hasOwnProperty"). cbn. tauto.
  - apply (getRecommendations_outcome "user_9").
    + simpl. intuition discriminate.
    + cbn. intuition discriminate.
Defined.

(** ** The potential friends *)

(** A returned object with a potential friend comes from [recommend] on
    the requester's own row of the table. *)
Lemma friend_of_table_user (userId : string) (r : Recommendations) :
  getRecommendations userId = Returned r ->
  potentialFriends r <> [] ->
  exists likes,
    own (userLikes mockData) userId = Some likes
    /\ r = recommend userId likes.
Proof.
  intros H Hne.
  destruct (in_dec string_dec userId (keys (userLikes mockData)))
    as [K | K].
  - destruct (table_user_returns _ K) as [likes [Hl Hr]]. exists likes.
    split; [assumption | congruence].
  - destruct (in_dec string_dec userId throwingNames) as [K' | K'].
    + rewrite (proj1 (throwing_names_throw _) K') in H. discriminate.
    + rewrite (other_names_no_likes _ K K') in H.
      injection H as <-. now destruct Hne.
Qed.

Lemma userSimilarities_shared (userId : string) (likes : list string)
    (entries : object (list string)) (u : SimilarUser.t) :
  In u (userSimilarities userId likes entries) ->
  exists otherUserLikes,
    In (SimilarUser.userId u, otherUserLikes) entries
    /\ SimilarUser.similarity u = calculateUserSimilarity likes otherUserLikes
    /\ SimilarUser.sharedLikes u
       = List.length (filter (includes otherUserLikes) likes).
Proof.
  induction entries as [| [otherUserId otherUserLikes] rest IH]; simpl.
  - intros [].
  - assert (K : In u (userSimilarities userId likes rest) ->
                exists l,
                  ((otherUserId, otherUserLikes) = (SimilarUser.userId u, l)
                   \/ In (SimilarUser.userId u, l) rest)
                  /\ SimilarUser.similarity u = calculateUserSimilarity likes l
                  /\ SimilarUser.sharedLikes u
                     = List.length (filter (includes l) likes)).
    { intros H. destruct (IH H) as [l [Hin Hl]]. exists l. tauto. }
    destruct (String.eqb otherUserId userId); [exact K |].
    destruct (PrimFloat.ltb 0 (calculateUserSimilarity likes otherUserLikes));
      [| exact K].
    intros [<- | H]; [| exact (K H)].
    simpl. exists otherUserLikes. auto.
Qed.

(** X5. Every potential friend is another user of the table; the score shown
    is the similarity of the requester's likes to that user's likes and is
    above 0; [sharedInterests] is the number of the requester's likes that
    the friend likes too, and is at least 1. *)
Theorem potential_friend_facts (userId : string) (r : Recommendations)
    (f : Friend.t) :
  getRecommendations userId = Returned r ->
  In f (potentialFriends r) ->
  exists likes friendLikes,
    own (userLikes mockData) userId = Some likes
    /\ own (userLikes mockData) (Friend.userId f) = Some friendLikes
    /\ Friend.userId f <> userId
    /\ Friend.similarityScore f = calculateUserSimilarity likes friendLikes
    /\ PrimFloat.ltb 0 (Friend.similarityScore f) = true
    /\ Friend.sharedInterests f
       = List.length (filter (includes friendLikes) likes)
    /\ 1 <= Friend.sharedInterests f.
Proof.
  intros H Hf.
  destruct (friend_of_table_user userId r H) as [likes [Hl ->]].
  { intros E. rewrite E in Hf. destruct Hf. }
  cbn [recommend potentialFriends] in Hf. apply in_map_iff in Hf.
  destruct Hf as [u [<- Hu]]. apply topSimilarUsers_In in Hu.
  destruct (userSimilarities_In _ _ _ _ Hu) as [Hne [l1 [_ [_ Hpos]]]].
  destruct (userSimilarities_shared _ _ _ _ Hu) as [l [Hin [Hsim Hsh]]].
  exists likes, l. cbn [toFriend Friend.userId Friend.similarityScore
                        Friend.sharedInterests].
  repeat split; try assumption.
  - now apply mock_users_own.
  - rewrite Hsh. rewrite Hsim in Hpos.
    destruct (shared_positive likes l) as [p [Hp Hq]].
    { intros E. apply disjoint_not_positive in E. congruence. }
    assert (Hp' : In p (filter (includes l) likes)).
    { apply filter_In. split; [assumption | now apply includes_In]. }
    destruct (filter (includes l) likes); [destruct Hp' | simpl; lia].
Qed.

Lemma potential_friend_facts_witness :
  exists likes friendLikes,
    own (userLikes mockData) "user_3" = Some likes
    /\ own (userLikes mockData) "user_1" = Some friendLikes
    /\ "user_1" <> "user_3"
    /\ 0.25%float = calculateUserSimilarity likes friendLikes
    /\ PrimFloat.ltb 0 0.25 = true
    /\ 1 = List.length (filter (includes friendLikes) likes)
    /\ 1 <= 1.
Proof.
  apply (potential_friend_facts "user_3" _
           {| Friend.userId := "user_1"; Friend.similarityScore := 0.25;
              Friend.sharedInterests := 1 |} eq_refl).
  vm_compute. tauto.
Defined.

(** X6. The list of potential friends is as long as the number of similar
    users allows, up to ten. *)
Theorem potential_friends_count (userId : string) (r : Recommendations)
    (n : nat) :
  getRecommendations userId = Returned r ->
  totalSimilarUsers r = Some n ->
  List.length (potentialFriends r) = Nat.min 10 n.
Proof.
  intros H Hn.
  destruct (getRecommendations_Returned _ _ H) as [-> | [likes ->]];
    [discriminate |].
  cbn [recommend totalSimilarUsers potentialFriends] in *.
  injection Hn as <-.
  rewrite length_map. unfold topSimilarUsers, slice0.
  now rewrite length_firstn, sort_length.
Qed.

Lemma potential_friends_count_witness :
  exists r,
    getRecommendations "user_4" = Returned r
    /\ List.length (potentialFriends r) = Nat.min 10 2.
Proof.
  eexists. split; [reflexivity |].
  apply (potential_friends_count "user_4"); reflexivity.
Defined.

Lemma NoDup_firstn {A : Type} (n : nat) (l : list A) :
  NoDup l -> NoDup (firstn n l).
Proof.
  intros H. rewrite <- (firstn_skipn n l) in H.
  now apply NoDup_app_remove_r in H.
Qed.

Lemma userSimilarities_NoDup (userId : string) (likes : list string)
    (entries : object (list string)) :
  NoDup (keys entries) ->
  NoDup (map SimilarUser.userId (userSimilarities userId likes entries)).
Proof.
  induction entries as [| [otherUserId otherUserLikes] rest IH]; simpl.
  - constructor.
  - intros H. inversion H as [| k ks Hk Hks]; subst.
    destruct (String.eqb otherUserId userId); [now apply IH |].
    destruct (PrimFloat.ltb 0 _); [| now apply IH].
    simpl. constructor; [| now apply IH].
    intros Hin. apply Hk. apply in_map_iff in Hin.
    destruct Hin as [u [<- Hu]].
    destruct (userSimilarities_In _ _ _ _ Hu) as [_ [l [Hl _]]].
    apply in_map_iff. now exists (SimilarUser.userId u, l).
Qed.

(** X7. No user is listed twice among the potential friends. *)
Theorem potential_friends_distinct (userId : string) (r : Recommendations) :
  getRecommendations userId = Returned r ->
  NoDup (map Friend.userId (potentialFriends r)).
Proof.
  intros H.
  destruct (getRecommendations_Returned _ _ H) as [-> | [likes ->]];
    [constructor |].
  cbn [recommend potentialFriends]. rewrite map_map.
  change (fun x => Friend.userId (toFriend x)) with SimilarUser.userId.
  unfold topSimilarUsers, slice0. rewrite <- firstn_map.
  apply NoDup_firstn.
  apply (Permutation_NoDup
           (Permutation_map _ (Permutation_sym (sort_Permutation _ _)))).
  apply userSimilarities_NoDup. repeat constructor; simpl; intuition discriminate.
Qed.

Lemma potential_friends_distinct_witness :
  exists r,
    getRecommendations "user_1" = Returned r
    /\ NoDup (map Friend.userId (potentialFriends r)).
Proof.
  eexists. split; [reflexivity |].
  apply (potential_friends_distinct "user_1"). reflexivity.
Defined.

(** ** The candidate posts *)

Lemma scoreUser_ids (likes : list string) (u : SimilarUser.t)
    (l : list string) (st : list string * object float) (q : string) :
  In q (fst (fold_left (scorePost likes u) l st))
  <-> In q (fst st) \/ In q l /\ ~ In q likes.
Proof.
  revert st. induction l as [| p l IH]; intros st; simpl.
  - tauto.
  - rewrite IH, scorePost_ids.
    destruct (includes likes p) eqn:E.
    + apply includes_In in E. intuition (subst; tauto).
    + apply includes_false in E. rewrite setAdd_In.
      intuition (subst; tauto).
Qed.

Lemma scoreUser_ids_NoDup (likes : list string) (u : SimilarUser.t)
    (l : list string) (st : list string * object float) :
  NoDup (fst st) -> NoDup (fst (fold_left (scorePost likes u) l st)).
Proof.
  revert st. induction l as [| p l IH]; intros st H; simpl.
  - assumption.
  - apply IH. rewrite scorePost_ids.
    destruct (includes likes p); [assumption | now apply setAdd_NoDup].
Qed.

(** The posts entered in [recommendedPostIds] are the posts of the top
    similar users that the requester does not like, each entered once. *)
Lemma scoreCandidates_ids_iff (likes : list string)
    (top : list SimilarUser.t) (q : string) :
  In q (fst (scoreCandidates likes top))
  <-> ~ In q likes
      /\ exists u, In u top /\ In q (similarUserLikes u).
Proof.
  unfold scoreCandidates.
  assert (G : forall top st,
             In q (fst (fold_left
                          (fun st similarUser =>
                             fold_left (scorePost likes similarUser)
                               (similarUserLikes similarUser) st)
                          top st))
             <-> In q (fst st)
                 \/ ~ In q likes
                    /\ exists u, In u top /\ In q (similarUserLikes u)).
  { clear. induction top as [| u top IH]; intros st; simpl.
    - split; [tauto | intros [H | [_ [u [[] _]]]]; assumption].
    - rewrite IH, scoreUser_ids. split.
      + intros [[H | [H1 H2]] | [H1 [v [Hv Hq]]]]; eauto 8.
      + intros [H | [H1 [v [[<- | Hv] Hq]]]]; eauto 8. }
  rewrite G. simpl. tauto.
Qed.

Lemma scoreCandidates_ids_NoDup (likes : list string)
    (top : list SimilarUser.t) :
  NoDup (fst (scoreCandidates likes top)).
Proof.
  unfold scoreCandidates.
  assert (G : forall top st,
             NoDup (fst st) ->
             NoDup (fst (fold_left
                           (fun st similarUser =>
                              fold_left (scorePost likes similarUser)
                                (similarUserLikes similarUser) st)
                           top st))).
  { clear. induction top as [| u top IH]; intros st H; simpl.
    - assumption.
    - now apply IH, scoreUser_ids_NoDup. }
  apply G. constructor.
Qed.

(** ** The business entries *)

Lemma postsOf_app (k : string) (l l' : list string) :
  postsOf k (l ++ l') = postsOf k l ++ postsOf k l'.
Proof. apply filter_app. Qed.

Lemma postsOf_single (k p : string) :
  postsOf k [p]
  = match own (postBusinessMap mockData) p with
    | Some b => if String.eqb b k then [p] else []
    | None => []
    end.
Proof.
  unfold postsOf. cbn [filter].
  destruct (own (postBusinessMap mockData) p) as [b |]; [| reflexivity].
  now destruct (String.eqb b k).
Qed.

Lemma keys_set {A : Type} (o : object A) (k : string) (v : A) :
  keys (set o k v)
  = if in_dec string_dec k (keys o) then keys o else keys o ++ [k].
Proof.
  induction o as [| [k0 v0] o IH]; simpl.
  - reflexivity.
  - destruct (String.eqb_spec k0 k) as [-> | Hne]; simpl.
    + destruct (string_dec k k); [reflexivity | congruence].
    + rewrite IH. destruct (string_dec k0 k); [congruence |].
      destruct (in_dec string_dec k (keys o)); reflexivity.
Qed.

Lemma keys_set_NoDup {A : Type} (o : object A) (k : string) (v : A) :
  NoDup (keys o) -> NoDup (keys (set o k v)).
Proof.
  intros H. rewrite keys_set.
  destruct (in_dec string_dec k (keys o)) as [Hin | Hin]; [assumption |].
  apply NoDup_app; [assumption | repeat constructor; simpl; tauto |].
  intros x Hx [<- | []]. contradiction.
Qed.

Lemma own_In {A : Type} (o : object A) (k : string) (v : A) :
  NoDup (keys o) -> (In (k, v) o <-> own o k = Some v).
Proof.
  induction o as [| [k0 v0] o IH]; simpl.
  - intros _. split; [tauto | discriminate].
  - intros H. inversion H as [| x xs Hx Hxs]; subst.
    destruct (String.eqb_spec k0 k) as [-> | Hne].
    + split.
      * intros [[= ->] | Hin]; [reflexivity |].
        exfalso. apply Hx. apply in_map_iff. now exists (k, v).
      * intros [= ->]. now left.
    + rewrite <- (IH Hxs). split; [| tauto].
      intros [[= -> ->] | Hin]; [congruence | assumption].
Qed.

(** After the loop over [recommendedPostIds], each business key holds the
    metadata of the business, the recommended posts that map to it, in
    order, and the sum of their scores; a business without a recommended
    post has no entry. *)
Lemma businessScores_entries (st : list string * object float) :
  NoDup (keys (businessScores st))
  /\ forall k,
       match own (businessScores st) k with
       | Some item =>
           k <> ""
           /\ BusinessScore.business item = own (businesses mockData) k
           /\ BusinessScore.recommendedPosts item = postsOf k (fst st)
           /\ postsOf k (fst st) <> []
           /\ BusinessScore.score item
              = sumOfPostScores (snd st) (postsOf k (fst st))
       | None => k = "" \/ postsOf k (fst st) = []
       end.
Proof.
  unfold businessScores.
  set (Inv := fun (done : list string) (bs : object BusinessScore.t) =>
    NoDup (keys bs)
    /\ forall k,
         match own bs k with
         | Some item =>
             k <> ""
             /\ BusinessScore.business item = own (businesses mockData) k
             /\ BusinessScore.recommendedPosts item = postsOf k done
             /\ postsOf k done <> []
             /\ BusinessScore.score item
                = sumOfPostScores (snd st) (postsOf k done)
         | None => k = "" \/ postsOf k done = []
         end).
  assert (G : forall l done bs,
             Inv done bs ->
             Inv (done ++ l) (fold_left (scoreBusiness (snd st)) l bs)).
  { induction l as [| p l IH]; intros done bs H; simpl.
    - now rewrite app_nil_r.
    - replace (done ++ p :: l) with ((done ++ [p]) ++ l)
        by now rewrite <- app_assoc.
      apply IH. clear IH. destruct H as [Hnd H].
      unfold scoreBusiness.
      destruct (own (postBusinessMap mockData) p) as [b |] eqn:Eb.
      + destruct (String.eqb_spec b "") as [-> | Hb].
        * split; [assumption |]. intros k. specialize (H k).
          rewrite postsOf_app, postsOf_single, Eb.
          destruct (String.eqb_spec "" k) as [<- | Hk].
          -- destruct (own bs ""); [tauto | now left].
          -- now rewrite app_nil_r.
        * split; [now apply keys_set_NoDup |]. intros k.
          rewrite own_set, postsOf_app, postsOf_single, Eb.
          destruct (String.eqb_spec b k) as [<- | Hk].
          -- specialize (H b).
             destruct (own bs b) as [item |];
               cbn [BusinessScore.business BusinessScore.score
                    BusinessScore.recommendedPosts].
             ++ destruct H as [_ [H1 [H2 [_ H4]]]].
                repeat split; try assumption.
                ** now rewrite H2.
                ** intros E. now apply app_eq_nil in E.
                ** unfold sumOfPostScores in *. rewrite fold_left_app.
                   cbn [fold_left]. now rewrite H4.
             ++ destruct H as [H | H]; [contradiction |].
                rewrite H. cbn [app]. repeat split; auto. discriminate.
          -- rewrite app_nil_r. apply H.
      + split; [assumption |]. intros k. specialize (H k).
        rewrite postsOf_app, postsOf_single, Eb.
        now rewrite app_nil_r. }
  apply (G (fst st) [] []). split; [constructor |].
  intros k. now right.
Qed.

Lemma own_Some_In {A : Type} (o : object A) (k : string) (v : A) :
  own o k = Some v -> In (k, v) o.
Proof.
  induction o as [| [k0 v0] o IH]; simpl; [discriminate |].
  destruct (String.eqb_spec k0 k) as [-> | Hne].
  - intros [= ->]. now left.
  - auto.
Qed.

(** Every post of the mock store maps to a business of the store, stored
    under its own identifier, and no business has an empty identifier. *)
Lemma mock_businesses_known (p k : string) :
  own (postBusinessMap mockData) p = Some k ->
  k <> ""
  /\ exists biz,
       own (businesses mockData) k = Some biz /\ Business.id biz = k.
Proof.
  intros H. apply own_Some_In in H. simpl in H.
  repeat (destruct H as [[= <- <-] | H];
          [split; [discriminate | eexists; split; reflexivity] |]).
  destruct H.
Qed.

Lemma postsOf_In (k p : string) (ids : list string) :
  In p (postsOf k ids)
  <-> In p ids /\ own (postBusinessMap mockData) p = Some k.
Proof.
  unfold postsOf. rewrite filter_In.
  destruct (own (postBusinessMap mockData) p) as [b |].
  - destruct (String.eqb_spec b k) as [-> | Hne];
      intuition congruence.
  - intuition congruence.
Qed.

(** What the entries of [businessScores] are, seen from one of them. *)
Lemma businessScores_item (st : list string * object float)
    (item : BusinessScore.t) :
  In item (values (businessScores st)) ->
  exists k biz,
    own (businessScores st) k = Some item
    /\ BusinessScore.business item = Some biz
    /\ own (businesses mockData) k = Some biz
    /\ Business.id biz = k
    /\ BusinessScore.recommendedPosts item = postsOf k (fst st)
    /\ postsOf k (fst st) <> []
    /\ BusinessScore.score item
       = sumOfPostScores (snd st) (postsOf k (fst st)).
Proof.
  intros H. destruct (businessScores_entries st) as [Hnd Hk].
  apply in_map_iff in H. destruct H as [[k item'] [E Hin]].
  simpl in E. subst item'. apply (own_In _ _ _ Hnd) in Hin.
  specialize (Hk k). rewrite Hin in Hk.
  destruct Hk as [_ [Hb [Hp [Hne Hs]]]].
  destruct (postsOf k (fst st)) as [| p l] eqn:Ep; [congruence |].
  assert (Hp' : In p (postsOf k (fst st))) by (rewrite Ep; now left).
  apply postsOf_In in Hp'. destruct Hp' as [_ Hp'].
  destruct (mock_businesses_known _ _ Hp') as [_ [biz [B1 B2]]].
  exists k, biz. rewrite Ep.
  repeat split; try assumption; congruence.
Qed.

Lemma businessScores_few (st : list string * object float) :
  List.length (values (businessScores st)) <= 20.
Proof.
  destruct (businessScores_entries st) as [Hnd Hk].
  unfold values. rewrite length_map.
  rewrite <- (length_map fst). fold (keys (businessScores st)).
  assert (I : incl (keys (businessScores st))
                (values (postBusinessMap mockData))).
  { intros k Hin.
    destruct (own (businessScores st) k) as [item |] eqn:E.
    - specialize (Hk k). rewrite E in Hk.
      destruct Hk as [_ [_ [_ [Hne _]]]].
      destruct (postsOf k (fst st)) as [| p l] eqn:Ep; [congruence |].
      assert (Hp : In p (postsOf k (fst st))) by (rewrite Ep; now left).
      apply postsOf_In in Hp. destruct Hp as [_ Hp].
      apply own_Some_In in Hp. apply in_map_iff. now exists (p, k).
    - apply own_None_not_key in E. contradiction. }
  apply (NoDup_incl_length Hnd) in I.
  etransitivity; [exact I |]. simpl. lia.
Qed.

(** What a call returns is the early-return object or [recommend] on the
    requester's own row of the table. *)
Lemma returned_cases (userId : string) (r : Recommendations) :
  getRecommendations userId = Returned r ->
  r = noLikes
  \/ exists likes,
       own (userLikes mockData) userId = Some likes
       /\ r = recommend userId likes.
Proof.
  intros H.
  destruct (in_dec string_dec userId (keys (userLikes mockData)))
    as [K | K].
  - right. destruct (table_user_returns _ K) as [likes [Hl Hr]].
    exists likes. split; [assumption | congruence].
  - destruct (in_dec string_dec userId throwingNames) as [K' | K'].
    + rewrite (proj1 (throwing_names_throw _) K') in H. discriminate.
    + left. rewrite (other_names_no_likes _ K K') in H. congruence.
Qed.

(** The recommended businesses of [recommend], before [toRecommended]. *)
Lemma recommend_businesses (userId : string) (likes : list string) :
  recommendedBusinesses (recommend userId likes)
  = map toRecommended
      (sort byScore
         (values
            (businessScores
               (scoreCandidates likes (topSimilarUsers userId likes))))).
Proof.
  cbn [recommend recommendedBusinesses]. unfold slice0.
  apply firstn_all2. rewrite length_map, sort_length.
  apply businessScores_few.
Qed.

(** X8. Every recommended business is a business of the store; its score is
    the sum of the scores of the recommended posts that map to it, and the
    number in its [reason] is the number of those posts, at least 1. *)
Theorem recommended_business_facts (userId : string) (r : Recommendations)
    (b : Recommended.t) :
  getRecommendations userId = Returned r ->
  In b (recommendedBusinesses r) ->
  exists likes k biz,
    own (userLikes mockData) userId = Some likes
    /\ Recommended.business b = Some biz
    /\ own (businesses mockData) k = Some biz
    /\ Business.id biz = k
    /\ let st := scoreCandidates likes (topSimilarUsers userId likes) in
       let posts := postsOf k (fst st) in
       1 <= List.length posts
       /\ Recommended.recommendationScore b = sumOfPostScores (snd st) posts
       /\ Recommended.reason b
          = ("Liked by " ++ numberToString (List.length posts)
             ++ " similar user(s)")%string.
Proof.
  intros H Hb.
  destruct (returned_cases _ _ H) as [-> | [likes [Hl ->]]];
    [destruct Hb |].
  rewrite recommend_businesses in Hb. apply in_map_iff in Hb.
  destruct Hb as [item [<- Hitem]]. apply sort_In in Hitem.
  destruct (businessScores_item _ _ Hitem)
    as [k [biz [_ [B1 [B2 [B3 [P1 [P2 S]]]]]]]].
  exists likes, k, biz. cbv zeta.
  cbn [toRecommended Recommended.business Recommended.recommendationScore
       Recommended.reason].
  rewrite P1. repeat split; try assumption.
  destruct (postsOf k _); [congruence | simpl; lia].
Qed.

Lemma recommended_business_facts_witness :
  exists likes k biz,
    own (userLikes mockData) "user_1" = Some likes
    /\ Some
         {| Business.id := "business_4"; Business.name := "Salon D";
            Business.category := "Beauty" |} = Some biz
    /\ own (businesses mockData) k = Some biz
    /\ Business.id biz = k
    /\ let st := scoreCandidates likes (topSimilarUsers "user_1" likes) in
       let posts := postsOf k (fst st) in
       1 <= List.length posts
       /\ 0.5%float = sumOfPostScores (snd st) posts
       /\ "Liked by 2 similar user(s)"
          = ("Liked by " ++ numberToString (List.length posts)
             ++ " similar user(s)")%string.
Proof.
  apply (recommended_business_facts "user_1" _
           {| Recommended.business :=
                Some {| Business.id := "business_4";
                        Business.name := "Salon D";
                        Business.category := "Beauty" |};
              Recommended.recommendationScore := 0.5;
              Recommended.reason := "Liked by 2 similar user(s)" |}
           eq_refl).
  vm_compute. tauto.
Defined.

Lemma businessIds_recommend (userId : string) (likes : list string)
    (b : option string) :
  In b (businessIds (recommend userId likes))
  <-> exists item,
        In item
          (values
             (businessScores
                (scoreCandidates likes (topSimilarUsers userId likes))))
        /\ option_map Business.id (BusinessScore.business item) = b.
Proof.
  unfold businessIds. rewrite recommend_businesses, map_map, in_map_iff.
  cbn [toRecommended Recommended.business].
  split; intros [item [E H]]; exists item.
  - apply sort_In in H. tauto.
  - split; [tauto | apply sort_In; tauto].
Qed.

(** X9. A business is recommended exactly when one of its posts is liked by a
    top similar user and not by the requester. *)
Theorem recommended_business_iff (userId : string) (likes : list string)
    (r : Recommendations) (b : string) :
  own (userLikes mockData) userId = Some likes ->
  getRecommendations userId = Returned r ->
  (In (Some b) (businessIds r)
   <-> exists p u,
         own (postBusinessMap mockData) p = Some b
         /\ ~ In p likes
         /\ In u (topSimilarUsers userId likes)
         /\ In p (similarUserLikes u)).
Proof.
  intros Hl H.
  destruct (table_user_returns userId) as [likes' [Hl' Hr]].
  { destruct (in_dec string_dec userId (keys (userLikes mockData)))
      as [K | K]; [assumption |].
    apply own_None_not_key in K. congruence. }
  assert (likes' = likes) by congruence. subst likes'.
  assert (r = recommend userId likes) by congruence. subst r.
  rewrite businessIds_recommend.
  set (st := scoreCandidates likes (topSimilarUsers userId likes)).
  split.
  - intros [item [Hitem Hid]].
    destruct (businessScores_item _ _ Hitem)
      as [k [biz [_ [B1 [_ [B3 [_ [P2 _]]]]]]]].
    rewrite B1 in Hid. simpl in Hid. injection Hid as Hid.
    assert (k = b) by congruence. subst k.
    destruct (postsOf b (fst st)) as [| p l] eqn:Ep; [congruence |].
    assert (Hp : In p (postsOf b (fst st))) by (rewrite Ep; now left).
    apply postsOf_In in Hp. destruct Hp as [Hp Hb].
    apply scoreCandidates_ids_iff in Hp. destruct Hp as [Hn [u [Hu Hpu]]].
    now exists p, u.
  - intros [p [u [Hb [Hn [Hu Hpu]]]]].
    assert (Hp : In p (postsOf b (fst st))).
    { apply postsOf_In. split; [| assumption].
      apply scoreCandidates_ids_iff. eauto. }
    destruct (mock_businesses_known _ _ Hb) as [Hne [biz [B1 B2]]].
    destruct (businessScores_entries st) as [_ Hk]. specialize (Hk b).
    destruct (own (businessScores st) b) as [item |] eqn:E.
    + exists item. split; [now apply (own_In_values _ b) |].
      destruct Hk as [_ [Hbiz _]]. rewrite Hbiz, B1. simpl. now f_equal.
    + destruct Hk as [Hk | Hk]; [contradiction |].
      rewrite Hk in Hp. destruct Hp.
Qed.

Lemma recommended_business_iff_witness :
  exists r,
    getRecommendations "user_2" = Returned r
    /\ (In (Some "business_5") (businessIds r)
        <-> exists p u,
              own (postBusinessMap mockData) p = Some "business_5"
              /\ ~ In p ["post_2"; "post_3"; "post_4"; "post_6"]
              /\ In u (topSimilarUsers "user_2"
                         ["post_2"; "post_3"; "post_4"; "post_6"])
              /\ In p (similarUserLikes u)).
Proof.
  eexists. split; [reflexivity |].
  apply (recommended_business_iff "user_2"); reflexivity.
Defined.

(** X10. No business is recommended twice. *)
Theorem recommended_businesses_distinct (userId : string)
    (r : Recommendations) :
  getRecommendations userId = Returned r ->
  NoDup (businessIds r).
Proof.
  intros H.
  destruct (returned_cases _ _ H) as [-> | [likes [_ ->]]];
    [constructor |].
  unfold businessIds. rewrite recommend_businesses, map_map.
  cbn [toRecommended Recommended.business].
  set (st := scoreCandidates likes (topSimilarUsers userId likes)).
  apply (Permutation_NoDup
           (Permutation_map _ (Permutation_sym (sort_Permutation _ _)))).
  destruct (businessScores_entries st) as [Hnd _].
  unfold values. rewrite map_map.
  rewrite (map_ext_in _ (fun kv => Some (fst kv))).
  - rewrite <- (map_map fst Some).
    apply Finite.Injective_map_NoDup; [| exact Hnd].
    intros x y [= ->]. reflexivity.
  - intros [k item] Hin. cbn [fst snd].
    apply (own_In _ _ _ Hnd) in Hin.
    destruct (businessScores_entries st) as [_ Hk].
    specialize (Hk k). rewrite Hin in Hk.
    destruct Hk as [_ [Hbiz [_ [Hne _]]]].
    destruct (postsOf k (fst st)) as [| p l] eqn:Ep; [congruence |].
    assert (Hp : In p (postsOf k (fst st))) by (rewrite Ep; now left).
    apply postsOf_In in Hp. destruct Hp as [_ Hp].
    destruct (mock_businesses_known _ _ Hp) as [_ [biz [B1 B2]]].
    rewrite Hbiz, B1. simpl. now f_equal.
Qed.

Lemma recommended_businesses_distinct_witness :
  exists r,
    getRecommendations "user_2" = Returned r /\ NoDup (businessIds r).
Proof.
  eexists. split; [reflexivity |].
  apply (recommended_businesses_distinct "user_2"). reflexivity.
Defined.

(** * The route handlers *)

Lemma present_Some (x : option string) (s : string) :
  present x = Some s <-> x = Some s /\ s <> "".
Proof.
  unfold present. destruct x as [t |]; [| split; [discriminate | tauto]].
  destruct (String.eqb_spec t "") as [-> | Hne].
  - split; [discriminate | intros [[= <-] H]; congruence].
  - split; [intros [= <-]; tauto | intros [[= <-] _]; reflexivity].
Qed.

Lemma present_None (x : option string) :
  present x = None <-> x = None \/ x = Some "".
Proof.
  unfold present. destruct x as [t |]; [| tauto].
  destruct (String.eqb_spec t "") as [-> | Hne].
  - tauto.
  - split; [discriminate | intros [H | [= H]]; congruence].
Qed.

Lemma orElse_not_empty (message : option string) (fallback : string) :
  fallback <> "" -> orElse message fallback <> "".
Proof.
  unfold orElse. intros H.
  destruct (present message) as [m |] eqn:E; [| assumption].
  now apply present_Some in E.
Qed.

(** ** GET /api/recommendation *)

Lemma getRecommendations_dichotomy (userId : string) :
  In userId throwingNames
  /\ getRecommendations userId
     = Thrown (TypeError "userLikes is not iterable")
  \/ ~ In userId throwingNames
     /\ exists r, getRecommendations userId = Returned r.
Proof.
  destruct (in_dec string_dec userId throwingNames) as [K | K].
  - left. split; [assumption | now apply throwing_names_throw].
  - right. split; [assumption |].
    destruct (in_dec string_dec userId (keys (userLikes mockData)))
      as [K' | K'].
    + destruct (table_user_returns _ K') as [likes [_ H]]. eauto.
    + exists noLikes. now apply other_names_no_likes.
Qed.

(** X11. The status of the response tells the three cases apart: 401
    without a user identifier, 500 for the nine inherited names, and 200
    for every other identifier; [success] is [true] on 200 only. *)
Theorem recommendationRoute_status (userId : option string) :
  let reply := recommendationRoute userId in
  (Reply.status reply = 401 <-> userId = None \/ userId = Some "")
  /\ (Reply.status reply = 500 <->
      exists id, userId = Some id /\ In id throwingNames)
  /\ (Reply.status reply = 200 <->
      exists id, userId = Some id /\ id <> "" /\ ~ In id throwingNames)
  /\ (Reply.success reply = true <-> Reply.status reply = 200).
Proof.
  cbv zeta. unfold recommendationRoute.
  destruct (present userId) as [id |] eqn:E.
  - apply present_Some in E. destruct E as [-> Hne].
    destruct (getRecommendations_dichotomy id) as [[Y G] | [N [r G]]];
      rewrite G; simpl.
    + repeat split; try discriminate; try tauto.
      * intros [H | [= H]]; congruence.
      * intros _. now exists id.
      * intros [id' [[= <-] [_ H]]]. contradiction.
    + repeat split; try discriminate; try tauto.
      * intros [H | [= H]]; congruence.
      * intros [id' [[= <-] H]]. contradiction.
      * intros _. now exists id.
  - apply present_None in E. simpl.
    assert (Z : ~ In "" throwingNames) by (cbn; intuition discriminate).
    repeat split; try discriminate; try tauto.
    + intros [id [H Hin]]. destruct E as [E | E]; rewrite E in H;
        [discriminate | injection H as <-; contradiction].
    + intros [id [H [Hne _]]]. destruct E; congruence.
Qed.

(** X12. A signed-in user who is not in the table (and does not bear one of the
    nine inherited names) gets a 200 response with [success: true], the
    explanatory message and two empty arrays, and neither [algorithm] nor
    [totalSimilarUsers]. *)
Theorem recommendationRoute_new_user (userId : string) :
  userId <> "" ->
  ~ In userId (keys (userLikes mockData)) ->
  ~ In userId throwingNames ->
  recommendationRoute (Some userId)
  = {| Reply.status := 200;
       Reply.success := true;
       Reply.message :=
         Some "No likes found for user. Start liking posts to get recommendations!";
       Reply.potentialFriends := Some [];
       Reply.recommendedBusinesses := Some [];
       Reply.algorithm := None;
       Reply.totalSimilarUsers := None |}.
Proof.
  intros Hne K N. unfold recommendationRoute.
  rewrite (proj2 (present_Some (Some userId) userId)) by auto.
  now rewrite (other_names_no_likes _ K N).
Qed.

Lemma recommendationRoute_new_user_witness :
  recommendationRoute (Some "user_2NNEqL2nrIRdJ194ndJqAHwEfxC")
  = {| Reply.status := 200;
       Reply.success := true;
       Reply.message :=
         Some "No likes found for user. Start liking posts to get recommendations!";
       Reply.potentialFriends := Some [];
       Reply.recommendedBusinesses := Some [];
       Reply.algorithm := None;
       Reply.totalSimilarUsers := None |}.
Proof.
  apply recommendationRoute_new_user.
  - discriminate.
  - simpl. intuition discriminate.
  - cbn. intuition discriminate.
Defined.

(** ** POST /api/auth/signup *)

(** X13. The request is refused with 400 exactly when a required field is
    missing or empty or the password has fewer than 8 characters; Clerk is
    then not called, whatever it would have answered. *)
Theorem signup_validation (clerkClient : Clerk.client) (body : SignupBody.t) :
  let '(reply, calls) := signup clerkClient body in
  (AuthReply.status reply = 400 <->
   present (SignupBody.email body) = None
   \/ present (SignupBody.password body) = None
   \/ present (SignupBody.firstName body) = None
   \/ present (SignupBody.lastName body) = None
   \/ exists password,
        SignupBody.password body = Some password
        /\ String.length password < 8)
  /\ (AuthReply.status reply = 400 ->
      calls = [] /\ AuthReply.success reply = false).
Proof.
  unfold signup.
  destruct (present (SignupBody.email body)) as [email |] eqn:Ee;
    [| simpl; intuition].
  destruct (present (SignupBody.password body)) as [password |] eqn:Ep;
    [| simpl; intuition].
  destruct (present (SignupBody.firstName body)) as [firstName |] eqn:Ef;
    [| simpl; intuition].
  destruct (present (SignupBody.lastName body)) as [lastName |] eqn:El;
    [| simpl; intuition].
  apply present_Some in Ep. destruct Ep as [Ep Hp].
  destruct (Nat.ltb_spec (String.length password) 8) as [Hlt | Hge].
  - simpl. split; [| intuition]. split; [| reflexivity].
    intros _. right; right; right; right. now exists password.
  - destruct (Clerk.createUser clerkClient _); simpl.
    + split; [| discriminate]. split; [discriminate |].
      intros [H | [H | [H | [H | [pw [Hpw Hlen]]]]]]; try discriminate.
      rewrite Ep in Hpw. injection Hpw as <-. lia.
    + split; [| discriminate]. split; [discriminate |].
      intros [H | [H | [H | [H | [pw [Hpw Hlen]]]]]]; try discriminate.
      rewrite Ep in Hpw. injection Hpw as <-. lia.
Qed.

(** X14. For a body whose fields are strings or missing, Clerk is asked to
    create a user at most once per request, and only with data that passed
    the checks: the e-mail address, the names and the password are the
    non-empty strings of the request, the password has at least 8
    characters, and [phoneNumbers] is set exactly when the request has a
    non-empty phone number.  A password that is not a string (a JSON
    number or boolean, whose [length] is [undefined]) is outside
    [SignupBody.t] and outside this statement. *)
Theorem signup_calls (clerkClient : Clerk.client) (body : SignupBody.t)
    (call : Clerk.call) :
  In call (snd (signup clerkClient body)) ->
  snd (signup clerkClient body) = [call]
  /\ exists userData,
       call = Clerk.CreateUser userData
       /\ present (SignupBody.email body)
          = Some (hd "" (UserData.emailAddress userData))
       /\ List.length (UserData.emailAddress userData) = 1
       /\ present (SignupBody.password body)
          = Some (UserData.password userData)
       /\ 8 <= String.length (UserData.password userData)
       /\ present (SignupBody.firstName body)
          = Some (UserData.firstName userData)
       /\ present (SignupBody.lastName body)
          = Some (UserData.lastName userData)
       /\ UserData.phoneNumbers userData
          = option_map (fun phoneNumber => [phoneNumber])
              (present (SignupBody.phoneNumber body)).
Proof.
  unfold signup.
  destruct (present (SignupBody.email body)) as [email |];
    [| intros []].
  destruct (present (SignupBody.password body)) as [password |];
    [| intros []].
  destruct (present (SignupBody.firstName body)) as [firstName |];
    [| intros []].
  destruct (present (SignupBody.lastName body)) as [lastName |];
    [| intros []].
  destruct (Nat.ltb_spec (String.length password) 8) as [Hlt | Hge];
    [intros [] |].
  cbn [snd]. intros [<- | []]. split; [reflexivity |].
  eexists. split; [reflexivity |]. cbn.
  repeat split; try assumption.
Qed.

Lemma signup_calls_witness :
  let clerkClient :=
    {| Clerk.createUser := fun _ => Clerk.Rejected None;
       Clerk.getUser := fun _ => Clerk.Rejected None |} in
  let body :=
    {| SignupBody.email := Some "user@example.com";
       SignupBody.password := Some "SecurePassword123!";
       SignupBody.firstName := Some "John";
       SignupBody.lastName := Some "Doe";
       SignupBody.phoneNumber := None |} in
  let call :=
    Clerk.CreateUser
      {| UserData.emailAddress := ["user@example.com"];
         UserData.password := "SecurePassword123!";
         UserData.firstName := "John";
         UserData.lastName := "Doe";
         UserData.phoneNumbers := None |} in
  snd (signup clerkClient body) = [call]
  /\ exists userData,
       call = Clerk.CreateUser userData
       /\ present (SignupBody.email body)
          = Some (hd "" (UserData.emailAddress userData))
       /\ List.length (UserData.emailAddress userData) = 1
       /\ present (SignupBody.password body)
          = Some (UserData.password userData)
       /\ 8 <= String.length (UserData.password userData)
       /\ present (SignupBody.firstName body)
          = Some (UserData.firstName userData)
       /\ present (SignupBody.lastName body)
          = Some (UserData.lastName userData)
       /\ UserData.phoneNumbers userData
          = option_map (fun phoneNumber => [phoneNumber])
              (present (SignupBody.phoneNumber body)).
Proof.
  cbv zeta. apply signup_calls. simpl. now left.
Defined.



(** ** POST /api/auth/login *)


(** ** GET /api/auth/profile *)

(** X17. Without a user identifier the profile route answers 401 and does not
    call Clerk; with one it asks Clerk for exactly that user, once, and
    answers 200 with that user's identifier and first e-mail address when
    the call resolves and 500 with a non-empty message when it rejects. *)
Theorem profile_reply (clerkClient : Clerk.client) (userId : option string) :
  match present userId with
  | None =>
      profile clerkClient userId
      = (authFailure 401 "Unauthorized - user not authenticated", [])
  | Some id =>
      snd (profile clerkClient userId) = [Clerk.GetUser id]
      /\ match Clerk.getUser clerkClient id with
         | Clerk.Resolved user =>
             AuthReply.status (fst (profile clerkClient userId)) = 200
             /\ AuthReply.success (fst (profile clerkClient userId)) = true
             /\ exists view,
                  AuthReply.user (fst (profile clerkClient userId))
                  = Some view
                  /\ UserView.id view = ClerkUser.id user
                  /\ UserView.emailAddress view
                     = option_map EmailAddress.emailAddress
                         (nth_error (ClerkUser.emailAddresses user) 0)
         | Clerk.Rejected message =>
             exists text,
               fst (profile clerkClient userId) = authFailure 500 text
               /\ text <> ""
         end
  end.
Proof.
  unfold profile. destruct (present userId) as [id |]; [| reflexivity].
  split; [reflexivity |].
  destruct (Clerk.getUser clerkClient id) as [user | message]; cbn.
  - repeat split. eexists. split; [reflexivity |]. cbn. split; reflexivity.
  - eexists. split; [reflexivity |]. apply orElse_not_empty. discriminate.
Qed.
